(** * Dikt IBus wrapper (src/ibus-sys/wrapper.c): a shallow embedding

    The wrapper is glue code: every function of wrapper.c reads or writes a
    handful of file-level statics and calls into IBus and GLib.  The
    embedding keeps that shape.

    - The statics of wrapper.c are the record [Globals].
    - Every foreign function the wrapper calls is a constructor of
      [ibus_call], indexed by the C return type.  What a call answers, and
      what it does to the rest of the process (the IBus daemon, the GObject
      heap, the host application behind the callback pointers) is decided
      by a [Framework], about which the theorems assume nothing.
    - A function of wrapper.c is a computation in the state monad [M]; each
      foreign call is appended, with its answer, to a trace, so that "the
      bus is not touched" or "freed exactly once" are statements about the
      trace.
    - A foreign call acts on [W] only. A host callback that re-enters the
      wrapper and rewrites its statics while a wrapper function is still
      running is outside the model; wrapper.c is single-threaded glue and
      makes the same assumption. *)

From Stdlib Require Import ZArith NArith List String Ascii Bool Lia DecimalString.
From Stdlib Require Import Permutation.
Import ListNotations.

Set Implicit Arguments.

(** ** C data *)

(** Pointers are addresses; the null pointer is address 0. *)
Definition ptr := N.
Definition NULL : ptr := 0%N.
Definition is_null (p : ptr) : bool := (p =? 0)%N.

(** [gboolean] is GLib's [gint]; a condition holds when it is not 0. *)
Definition gboolean := Z.
Definition FALSE : gboolean := 0%Z.
Definition TRUE : gboolean := 1%Z.
Definition c_true (b : gboolean) : bool := negb (b =? 0)%Z.

(** [guint], [gulong], [gsize] and [GType] values are only passed around. *)
Definition guint := N.
Definition gulong := N.
Definition gsize := N.
Definition GType := N.

Bind Scope N_scope with ptr guint gulong gsize GType.
Bind Scope Z_scope with gboolean.

(** A C string argument is [None] when the pointer is null. *)
Definition gchar_p := option string.

Definition strlen (s : string) : N := N.of_nat (String.length s).

(** The line feed the diagnostics end with. *)
Definition LF : string := String (ascii_of_nat 10) EmptyString.

(** printf's [%u]. *)
Definition fmt_u (n : guint) : string := NilEmpty.string_of_uint (N.to_uint n).

(** wrapper.c, lines 7-9: [DIKT_VERSION] is an input of the build. A
    build that defines it supplies the string; one that does not gets
    "unknown". *)
Class Build : Type := mkBuild { DIKT_VERSION : string }.

Definition default_build : Build := mkBuild "unknown".

(** wrapper.c, lines 11-12. *)
Definition IBUS_BUS_NAME_REQUESTED_PRIMARY : guint := 1%N.
Definition IBUS_BUS_NAME_REQUESTED_REPLACED : guint := 2%N.

(** The one signal handler the wrapper installs (G_CALLBACK argument). *)
Inductive GCallback := G_CALLBACK_ibus_disconnected_cb.

(** ** Foreign calls *)

(** The functions of IBus, GLib and libc that wrapper.c calls, with their C
    argument lists; the index is the C return type.  The last three are the
    calls through pointers that wrapper.c does not own: the host's callback
    slots, and the parent class's destructor. *)
Inductive ibus_call : Type -> Type :=
| ibus_init : ibus_call unit
| ibus_quit : ibus_call unit
| ibus_bus_new : ibus_call ptr
| ibus_bus_is_connected (bus : ptr) : ibus_call gboolean
| ibus_bus_get_connection (bus : ptr) : ibus_call ptr
| ibus_factory_new (conn : ptr) : ibus_call ptr
| g_signal_connect (instance : ptr) (detailed_signal : string)
    (c_handler : GCallback) (data : ptr) : ibus_call gulong
| ibus_dikt_engine_get_type : ibus_call GType
| ibus_factory_add_engine (factory : ptr) (engine_name : string)
    (engine_type : GType) : ibus_call unit
| ibus_bus_request_name (bus : ptr) (name : string) (flags : guint) :
    ibus_call guint
| ibus_component_new
    (name description version license author homepage command_line
       textdomain : string) : ibus_call ptr
| ibus_engine_desc_new
    (name longname description language license author icon layout : string) :
    ibus_call ptr
| ibus_component_add_engine (component engine : ptr) : ibus_call unit
| ibus_bus_register_component (bus component : ptr) : ibus_call gboolean
| g_object_unref (object : ptr) : ibus_call unit
| ibus_bus_set_global_engine (bus : ptr) (global_engine : string) :
    ibus_call gboolean
| ibus_bus_get_global_engine (bus : ptr) : ibus_call ptr
| ibus_engine_desc_get_name (info : ptr) : ibus_call gchar_p
| g_strdup (str : string) : ibus_call gchar_p
| fprintf_stderr (message : string) : ibus_call unit
| invoke_key_event (cb ctx engine : ptr) (keyval keycode modifiers : guint) :
    ibus_call gboolean
| invoke_engine_cb (cb ctx engine : ptr) : ibus_call unit
| parent_class_destroy (object : ptr) : ibus_call unit.

(** One entry of the trace: a call and what it answered. *)
Inductive event : Type :=
| Ev : forall T : Type, ibus_call T -> T -> event.

(** Everything outside wrapper.c, as a deterministic machine on [W]. *)
Class Framework (W : Type) : Type :=
  respond : forall T : Type, ibus_call T -> W -> T * W.

Arguments respond {W _ T} _ _ : simpl never.

(** ** The statics of wrapper.c (lines 14-22 and 228-229) *)

Record Globals : Type := mkGlobals {
  global_context : ptr;
  global_key_event_cb : ptr;
  global_focus_in_cb : ptr;
  global_focus_out_cb : ptr;
  global_reset_cb : ptr;
  global_enable_cb : ptr;
  global_disable_cb : ptr;
  global_bus : ptr;
  global_factory : ptr;
  daemon_ibus_initialized : gsize;
  daemon_cached_bus : ptr
}.

(** The statics when the process starts. *)
Definition globals0 : Globals :=
  mkGlobals NULL NULL NULL NULL NULL NULL NULL NULL NULL 0%N NULL.

Definition set_global_bus (v : ptr) (g : Globals) : Globals :=
  mkGlobals (global_context g) (global_key_event_cb g) (global_focus_in_cb g)
    (global_focus_out_cb g) (global_reset_cb g) (global_enable_cb g)
    (global_disable_cb g) v (global_factory g) (daemon_ibus_initialized g)
    (daemon_cached_bus g).

Definition set_global_factory (v : ptr) (g : Globals) : Globals :=
  mkGlobals (global_context g) (global_key_event_cb g) (global_focus_in_cb g)
    (global_focus_out_cb g) (global_reset_cb g) (global_enable_cb g)
    (global_disable_cb g) (global_bus g) v (daemon_ibus_initialized g)
    (daemon_cached_bus g).

Definition set_daemon_ibus_initialized (v : gsize) (g : Globals) : Globals :=
  mkGlobals (global_context g) (global_key_event_cb g) (global_focus_in_cb g)
    (global_focus_out_cb g) (global_reset_cb g) (global_enable_cb g)
    (global_disable_cb g) (global_bus g) (global_factory g) v
    (daemon_cached_bus g).

Definition set_daemon_cached_bus (v : ptr) (g : Globals) : Globals :=
  mkGlobals (global_context g) (global_key_event_cb g) (global_focus_in_cb g)
    (global_focus_out_cb g) (global_reset_cb g) (global_enable_cb g)
    (global_disable_cb g) (global_bus g) (global_factory g)
    (daemon_ibus_initialized g) v.

(** The seven assignments of [ibus_dikt_set_callback]. *)
Definition set_callbacks
  (ctx key_event_cb focus_in_cb focus_out_cb reset_cb enable_cb disable_cb : ptr)
  (g : Globals) : Globals :=
  mkGlobals ctx key_event_cb focus_in_cb focus_out_cb reset_cb enable_cb
    disable_cb (global_bus g) (global_factory g) (daemon_ibus_initialized g)
    (daemon_cached_bus g).

(** ** The monad of wrapper.c *)

Declare Scope wrapper_scope.
Delimit Scope wrapper_scope with wrapper.

Section Wrapper.

Context {W : Type} {fw : Framework W} {bld : Build}.

(** The statics, the world outside, and the calls made so far. *)
Record State : Type := mkState {
  globals : Globals;
  world : W;
  trace : list event
}.

Definition M (A : Type) : Type := State -> A * State.

Definition ret {A : Type} (a : A) : M A := fun s => (a, s).

Definition bind {A B : Type} (m : M A) (k : A -> M B) : M B :=
  fun s => let (a, s') := m s in k a s'.

(** Read a static. *)
Definition gets {A : Type} (f : Globals -> A) : M A :=
  fun s => (f (globals s), s).

(** Assign statics. *)
Definition modify (f : Globals -> Globals) : M unit :=
  fun s => (tt, mkState (f (globals s)) (world s) (trace s)).

(** Make a foreign call: the framework answers and moves on, and the call is
    logged with its answer. *)
Definition call {T : Type} (c : ibus_call T) : M T :=
  fun s =>
    let (r, w') := respond c (world s) in
    (r, mkState (globals s) w' (trace s ++ [Ev c r])).

Notation "x <- c ;; k" := (bind c (fun x => k))
  (at level 61, c at next level, right associativity) : wrapper_scope.
Notation "c ;; k" := (bind c (fun _ => k))
  (at level 61, right associativity) : wrapper_scope.

Local Open Scope wrapper_scope.

(** ** The engine class (wrapper.c, lines 48-107) *)

(** lines 69-77 *)
Definition ibus_dikt_engine_process_key_event
  (engine : ptr) (keyval keycode modifiers : guint) : M gboolean :=
  cb <- gets global_key_event_cb ;;
  ctx <- gets global_context ;;
  if negb (is_null cb) && negb (is_null ctx)
  then call (invoke_key_event cb ctx engine keyval keycode modifiers)
  else ret FALSE.

(** lines 79-83 *)
Definition ibus_dikt_engine_focus_in (engine : ptr) : M unit :=
  cb <- gets global_focus_in_cb ;;
  ctx <- gets global_context ;;
  if negb (is_null cb) && negb (is_null ctx)
  then call (invoke_engine_cb cb ctx engine)
  else ret tt.

(** lines 85-89 *)
Definition ibus_dikt_engine_focus_out (engine : ptr) : M unit :=
  cb <- gets global_focus_out_cb ;;
  ctx <- gets global_context ;;
  if negb (is_null cb) && negb (is_null ctx)
  then call (invoke_engine_cb cb ctx engine)
  else ret tt.

(** lines 91-95 *)
Definition ibus_dikt_engine_reset (engine : ptr) : M unit :=
  cb <- gets global_reset_cb ;;
  ctx <- gets global_context ;;
  if negb (is_null cb) && negb (is_null ctx)
  then call (invoke_engine_cb cb ctx engine)
  else ret tt.

(** lines 97-101 *)
Definition ibus_dikt_engine_enable (engine : ptr) : M unit :=
  cb <- gets global_enable_cb ;;
  ctx <- gets global_context ;;
  if negb (is_null cb) && negb (is_null ctx)
  then call (invoke_engine_cb cb ctx engine)
  else ret tt.

(** lines 103-107 *)
Definition ibus_dikt_engine_disable (engine : ptr) : M unit :=
  cb <- gets global_disable_cb ;;
  ctx <- gets global_context ;;
  if negb (is_null cb) && negb (is_null ctx)
  then call (invoke_engine_cb cb ctx engine)
  else ret tt.

(** lines 62-67 *)
Definition ibus_dikt_engine_init (engine : ptr) : M unit := ret tt.

Definition ibus_dikt_engine_destroy (engine : ptr) : M unit :=
  call (parent_class_destroy engine).

(** The virtual methods of [IBusEngineClass] (and the one of
    [IBusObjectClass]) that the wrapper overrides. *)
Record IBusDiktEngineClass : Type := mkClass {
  destroy : ptr -> M unit;
  process_key_event : ptr -> guint -> guint -> guint -> M gboolean;
  focus_in : ptr -> M unit;
  focus_out : ptr -> M unit;
  reset : ptr -> M unit;
  enable : ptr -> M unit;
  disable : ptr -> M unit
}.

(** lines 48-60: every slot is overwritten, whatever the parent installed. *)
Definition ibus_dikt_engine_class_init
  (klass : IBusDiktEngineClass) : IBusDiktEngineClass :=
  mkClass ibus_dikt_engine_destroy
    ibus_dikt_engine_process_key_event
    ibus_dikt_engine_focus_in
    ibus_dikt_engine_focus_out
    ibus_dikt_engine_reset
    ibus_dikt_engine_enable
    ibus_dikt_engine_disable.

(** lines 109-113 *)
Definition ibus_disconnected_cb (bus user_data : ptr) : M unit :=
  call ibus_quit.

(** lines 115-129 *)
Definition ibus_dikt_set_callback
  (ctx key_event_cb focus_in_cb focus_out_cb reset_cb enable_cb disable_cb : ptr)
  : M unit :=
  modify (set_callbacks ctx key_event_cb focus_in_cb focus_out_cb reset_cb
            enable_cb disable_cb).

(** ** Bus and factory life cycle (lines 131-202) *)

(** lines 131-191; [ibus_mode] true is the IBus-managed mode. *)
Definition ibus_dikt_init (ibus_mode : bool) : M Z :=
  call ibus_init ;;
  bus <- call ibus_bus_new ;;
  if is_null bus then
    call (fprintf_stderr ("Failed to create IBus bus" ++ LF)) ;;
    ret 1%Z
  else
  connected <- call (ibus_bus_is_connected bus) ;;
  if negb (c_true connected) then
    call (fprintf_stderr ("IBus daemon not running" ++ LF)) ;;
    call (g_object_unref bus) ;;
    ret 2%Z
  else
  conn <- call (ibus_bus_get_connection bus) ;;
  if is_null conn then
    call (fprintf_stderr ("IBus bus has no connection" ++ LF)) ;;
    call (g_object_unref bus) ;;
    ret 3%Z
  else
  factory <- call (ibus_factory_new conn) ;;
  if is_null factory then
    call (fprintf_stderr ("Failed to create IBus factory" ++ LF)) ;;
    call (g_object_unref bus) ;;
    ret 4%Z
  else
  call (g_signal_connect bus "disconnected" G_CALLBACK_ibus_disconnected_cb
          NULL) ;;
  engine_type <- call ibus_dikt_engine_get_type ;;
  call (ibus_factory_add_engine factory "dikt" engine_type) ;;
  modify (set_global_bus bus) ;;
  modify (set_global_factory factory) ;;
  (if ibus_mode then
     result <- call (ibus_bus_request_name bus "org.freedesktop.IBus.Dikt" 0%N) ;;
     if negb (result =? IBUS_BUS_NAME_REQUESTED_PRIMARY)%N
        && negb (result =? IBUS_BUS_NAME_REQUESTED_REPLACED)%N
     then call (fprintf_stderr
                  ("Warning: Failed to acquire IBus name: " ++ fmt_u result
                     ++ LF))
     else ret tt
   else
     component <- call (ibus_component_new
                          "org.freedesktop.IBus.Dikt" "Dikt Speech-to-Text"
                          DIKT_VERSION "MIT" "Dikt Team"
                          "https://github.com/rohithmahesh3/Dikt" EmptyString
                          "dikt-ibus") ;;
     desc <- call (ibus_engine_desc_new
                     "dikt" "Dikt" "Dikt speech-to-text dictation" "other"
                     "MIT" "Dikt Team" "dikt" "default") ;;
     call (ibus_component_add_engine component desc) ;;
     call (ibus_bus_register_component bus component) ;;
     call (g_object_unref component)) ;;
  ret 0%Z.

(** lines 193-202 *)
Definition ibus_dikt_cleanup : M unit :=
  factory <- gets global_factory ;;
  (if negb (is_null factory) then
     call (g_object_unref factory) ;;
     modify (set_global_factory NULL)
   else ret tt) ;;
  bus <- gets global_bus ;;
  (if negb (is_null bus) then
     call (g_object_unref bus) ;;
     modify (set_global_bus NULL)
   else ret tt).

(** ** Control surface (lines 204-226) *)

(** lines 204-210; the three tests are a short-circuit [||]. *)
Definition ibus_dikt_set_global_engine (engine_name : gchar_p) : M gboolean :=
  bus <- gets global_bus ;;
  if is_null bus then ret FALSE else
  match engine_name with
  | None => ret FALSE
  | Some name =>
      connected <- call (ibus_bus_is_connected bus) ;;
      if negb (c_true connected) then ret FALSE
      else call (ibus_bus_set_global_engine bus name)
  end.

(** lines 217-225, and again lines 281-289: the tail that the two readers
    of the global engine have in common, written once. *)
Definition read_global_engine_name (bus : ptr) : M gchar_p :=
  desc <- call (ibus_bus_get_global_engine bus) ;;
  if is_null desc then ret None else
  name <- call (ibus_engine_desc_get_name desc) ;;
  result <- match name with
            | Some n => call (g_strdup n)
            | None => ret None
            end ;;
  call (g_object_unref desc) ;;
  ret result.

(** lines 212-226 *)
Definition ibus_dikt_get_global_engine_name : M gchar_p :=
  bus <- gets global_bus ;;
  if is_null bus then ret None else
  connected <- call (ibus_bus_is_connected bus) ;;
  if negb (c_true connected) then ret None
  else read_global_engine_name bus.

(** ** Daemon bus cache (lines 228-290) *)

(** GLib's one-shot latch on a [gsize] static, single-threaded:
    [g_once_init_enter] holds while the static is still 0, and
    [g_once_init_leave] stores the result. *)
Definition g_once_init_enter (location : Globals -> gsize) : M bool :=
  v <- gets location ;;
  ret (v =? 0)%N.

Definition g_once_init_leave
  (store : gsize -> Globals -> Globals) (result : gsize) : M unit :=
  modify (store result).

(** lines 236-239, the first statement of [ibus_dikt_daemon_get_bus] *)
Definition daemon_ibus_init_once : M unit :=
  first <- g_once_init_enter daemon_ibus_initialized ;;
  if first then
    call ibus_init ;;
    g_once_init_leave set_daemon_ibus_initialized 1%N
  else ret tt.

(** lines 235-260 *)
Definition ibus_dikt_daemon_get_bus : M ptr :=
  daemon_ibus_init_once ;;
  cached <- gets daemon_cached_bus ;;
  connected <- (if is_null cached then ret FALSE
                else call (ibus_bus_is_connected cached)) ;;
  if negb (is_null cached) && c_true connected then ret cached else
  (if negb (is_null cached) then
     call (g_object_unref cached) ;;
     modify (set_daemon_cached_bus NULL)
   else ret tt) ;;
  fresh <- call ibus_bus_new ;;
  modify (set_daemon_cached_bus fresh) ;;
  fresh_connected <- (if is_null fresh then ret FALSE
                      else call (ibus_bus_is_connected fresh)) ;;
  if is_null fresh || negb (c_true fresh_connected) then
    (if negb (is_null fresh) then
       call (g_object_unref fresh) ;;
       modify (set_daemon_cached_bus NULL)
     else ret tt) ;;
    ret NULL
  else ret fresh.

(** lines 262-273 *)
Definition ibus_dikt_daemon_set_global_engine
  (engine_name : gchar_p) : M gboolean :=
  match engine_name with
  | None => ret FALSE
  | Some name =>
      if (strlen name =? 0)%N then ret FALSE else
      bus <- ibus_dikt_daemon_get_bus ;;
      if is_null bus then ret FALSE
      else call (ibus_bus_set_global_engine bus name)
  end.

(** lines 275-290 *)
Definition ibus_dikt_daemon_get_global_engine_name : M gchar_p :=
  bus <- ibus_dikt_daemon_get_bus ;;
  if is_null bus then ret None
  else read_global_engine_name bus.

End Wrapper.

Arguments State W : clear implicits.
Arguments M W A : clear implicits.
Arguments IBusDiktEngineClass W : clear implicits.

(** ** The event families the framework can fire on an engine *)

Inductive engine_event : Type :=
| KeyEvent (keyval keycode modifiers : guint)
| FocusIn
| FocusOut
| Reset
| Enable
| Disable.

(** The slot of the callback table an event is routed to. *)
Definition slot_of (ev : engine_event) (g : Globals) : ptr :=
  match ev with
  | KeyEvent _ _ _ => global_key_event_cb g
  | FocusIn => global_focus_in_cb g
  | FocusOut => global_focus_out_cb g
  | Reset => global_reset_cb g
  | Enable => global_enable_cb g
  | Disable => global_disable_cb g
  end.

(** The framework firing [ev] on [engine]: a call through the class's virtual
    method; only [process_key_event] has a result. *)
Definition fire {W : Type} {fw : Framework W}
  (klass : IBusDiktEngineClass W) (engine : ptr) (ev : engine_event)
  : M W (option gboolean) :=
  match ev with
  | KeyEvent keyval keycode modifiers =>
      bind (process_key_event klass engine keyval keycode modifiers)
        (fun r => ret (Some r))
  | FocusIn => bind (focus_in klass engine) (fun _ => ret None)
  | FocusOut => bind (focus_out klass engine) (fun _ => ret None)
  | Reset => bind (reset klass engine) (fun _ => ret None)
  | Enable => bind (enable klass engine) (fun _ => ret None)
  | Disable => bind (disable klass engine) (fun _ => ret None)
  end.

(** The dispatch contract in the spec's words: the slot is invoked with the
    context, the engine instance and the event's own arguments, and a key
    event answers what the slot answered. *)
Definition forward {W : Type} {fw : Framework W}
  (ev : engine_event) (cb ctx engine : ptr) : M W (option gboolean) :=
  match ev with
  | KeyEvent keyval keycode modifiers =>
      bind (call (invoke_key_event cb ctx engine keyval keycode modifiers))
        (fun r => ret (Some r))
  | _ => bind (call (invoke_engine_cb cb ctx engine)) (fun _ => ret None)
  end.

(** What a dispatch that forwards nothing answers: "not consumed" for a key
    event, nothing for the others. *)
Definition not_handled (ev : engine_event) : option gboolean :=
  match ev with
  | KeyEvent _ _ _ => Some FALSE
  | _ => None
  end.

(** A class as the parent leaves it before [ibus_dikt_engine_class_init]
    runs: methods that do nothing. *)
Definition parent_class {W : Type} {fw : Framework W}
  : IBusDiktEngineClass W :=
  mkClass (fun _ => ret tt) (fun _ _ _ _ => ret FALSE) (fun _ => ret tt)
    (fun _ => ret tt) (fun _ => ret tt) (fun _ => ret tt) (fun _ => ret tt).

(** ** Sequences of control-surface calls *)

Inductive cs_op : Type :=
| SetGlobalEngine (engine_name : gchar_p)
| GetGlobalEngineName.

Inductive cs_result : Type :=
| SetResult (r : gboolean)
| GetResult (r : gchar_p).

(** What a control-surface call answers when its precondition fails. *)
Definition refused (r : cs_result) : bool :=
  match r with
  | SetResult b => (b =? FALSE)%Z
  | GetResult None => true
  | GetResult (Some _) => false
  end.

Definition run_cs_op {W : Type} {fw : Framework W} (op : cs_op)
  : M W cs_result :=
  match op with
  | SetGlobalEngine n =>
      bind (ibus_dikt_set_global_engine n) (fun r => ret (SetResult r))
  | GetGlobalEngineName =>
      bind ibus_dikt_get_global_engine_name (fun r => ret (GetResult r))
  end.

Fixpoint run_cs_ops {W : Type} {fw : Framework W} (ops : list cs_op)
  : M W (list cs_result) :=
  match ops with
  | [] => ret []
  | op :: rest =>
      bind (run_cs_op op) (fun r =>
        bind (run_cs_ops rest) (fun rs => ret (r :: rs)))
  end.

(** The daemon-side counterparts, through the bus cache. *)
Definition run_daemon_op {W : Type} {fw : Framework W} (op : cs_op)
  : M W cs_result :=
  match op with
  | SetGlobalEngine n =>
      bind (ibus_dikt_daemon_set_global_engine n) (fun r => ret (SetResult r))
  | GetGlobalEngineName =>
      bind ibus_dikt_daemon_get_global_engine_name
        (fun r => ret (GetResult r))
  end.

Fixpoint run_daemon_ops {W : Type} {fw : Framework W} (ops : list cs_op)
  : M W (list cs_result) :=
  match ops with
  | [] => ret []
  | op :: rest =>
      bind (run_daemon_op op) (fun r =>
        bind (run_daemon_ops rest) (fun rs => ret (r :: rs)))
  end.

(** ** Reading a trace *)

(** The calls of an [ibus_dikt_init] run that decide its exit code. *)
Definition is_stage_call (e : event) : bool :=
  match e with
  | Ev c _ =>
      match c with
      | ibus_bus_new => true
      | ibus_bus_is_connected _ => true
      | ibus_bus_get_connection _ => true
      | ibus_factory_new _ => true
      | _ => false
      end
  end.

Definition is_unref (e : event) : bool :=
  match e with
  | Ev c _ => match c with g_object_unref _ => true | _ => false end
  end.

Definition is_request_name (e : event) : bool :=
  match e with
  | Ev c _ => match c with ibus_bus_request_name _ _ _ => true | _ => false end
  end.

(** A bus or engine descriptor handed over to the wrapper: a non-null answer
    of [ibus_bus_new] or [ibus_bus_get_global_engine]. *)
Definition is_acquire (e : event) : bool :=
  match e with
  | Ev c r =>
      match c in ibus_call T return T -> bool with
      | ibus_bus_new => fun p => negb (is_null p)
      | ibus_bus_get_global_engine _ => fun p => negb (is_null p)
      | _ => fun _ => false
      end r
  end.

Definition is_bus_new (e : event) : bool :=
  match e with
  | Ev c _ => match c with ibus_bus_new => true | _ => false end
  end.

Definition count (f : event -> bool) (evs : list event) : nat :=
  List.length (List.filter f evs).

(** References handed to the wrapper and not yet given back. *)
Definition outstanding (evs : list event) : Z :=
  (Z.of_nat (count is_acquire evs) - Z.of_nat (count is_unref evs))%Z.

(** ** A mock framework

    A small IBus stand-in for running the wrapper on concrete inputs: fresh
    addresses for new objects, switches for each step that can fail (a bus
    handle is connected when the daemon is up, [connected_from = Some a],
    and the handle is not older than [a]), a store
    for the descriptors the wrapper builds, and a host whose key callback
    consumes the space key (keyval 0x20) only. *)

Record EngineDesc : Type := mkEngineDesc {
  ed_name : string;
  ed_longname : string;
  ed_description : string;
  ed_language : string;
  ed_license : string;
  ed_author : string;
  ed_icon : string;
  ed_layout : string
}.

Record Component : Type := mkComponent {
  co_name : string;
  co_description : string;
  co_version : string;
  co_license : string;
  co_author : string;
  co_homepage : string;
  co_exec : string;
  co_textdomain : string;
  co_engines : list EngineDesc
}.

Record Mock : Type := mkMock {
  next_addr : N;
  bus_available : bool;
  connected_from : option N;
  transport_available : bool;
  factory_available : bool;
  name_reply : guint;
  switch_reply : gboolean;
  global_engine : gchar_p;
  components : list (ptr * Component);
  descs : list (ptr * EngineDesc);
  registered : list Component;
  stderr : list string;
  host_log : list (ptr * ptr * ptr)
}.

Fixpoint lookup {A : Type} (p : ptr) (l : list (ptr * A)) : option A :=
  match l with
  | [] => None
  | (q, a) :: rest => if (q =? p)%N then Some a else lookup p rest
  end.

Definition alloc (m : Mock) : Mock :=
  mkMock (next_addr m + 1) (bus_available m) (connected_from m)
    (transport_available m) (factory_available m) (name_reply m)
    (switch_reply m) (global_engine m) (components m) (descs m)
    (registered m) (stderr m) (host_log m).

Definition with_global_engine (n : gchar_p) (m : Mock) : Mock :=
  mkMock (next_addr m) (bus_available m) (connected_from m)
    (transport_available m) (factory_available m) (name_reply m)
    (switch_reply m) n (components m) (descs m) (registered m) (stderr m)
    (host_log m).

Definition with_components (cs : list (ptr * Component)) (m : Mock) : Mock :=
  mkMock (next_addr m) (bus_available m) (connected_from m)
    (transport_available m) (factory_available m) (name_reply m)
    (switch_reply m) (global_engine m) cs (descs m) (registered m) (stderr m)
    (host_log m).

Definition with_descs (ds : list (ptr * EngineDesc)) (m : Mock) : Mock :=
  mkMock (next_addr m) (bus_available m) (connected_from m)
    (transport_available m) (factory_available m) (name_reply m)
    (switch_reply m) (global_engine m) (components m) ds (registered m)
    (stderr m) (host_log m).

Definition with_registered (cs : list Component) (m : Mock) : Mock :=
  mkMock (next_addr m) (bus_available m) (connected_from m)
    (transport_available m) (factory_available m) (name_reply m)
    (switch_reply m) (global_engine m) (components m) (descs m) cs (stderr m)
    (host_log m).

Definition with_stderr (out : list string) (m : Mock) : Mock :=
  mkMock (next_addr m) (bus_available m) (connected_from m)
    (transport_available m) (factory_available m) (name_reply m)
    (switch_reply m) (global_engine m) (components m) (descs m)
    (registered m) out (host_log m).

Definition with_host_log (l : list (ptr * ptr * ptr)) (m : Mock) : Mock :=
  mkMock (next_addr m) (bus_available m) (connected_from m)
    (transport_available m) (factory_available m) (name_reply m)
    (switch_reply m) (global_engine m) (components m) (descs m)
    (registered m) (stderr m) l.

Definition with_connected_from (a : option N) (m : Mock) : Mock :=
  mkMock (next_addr m) (bus_available m) a
    (transport_available m) (factory_available m) (name_reply m)
    (switch_reply m) (global_engine m) (components m) (descs m)
    (registered m) (stderr m) (host_log m).

(** A new object when [ok], the null pointer otherwise. *)
Definition fresh_if (ok : bool) (m : Mock) : ptr * Mock :=
  if ok then (next_addr m, alloc m) else (NULL, m).

Definition add_engine_to (d : EngineDesc) (c : Component) : Component :=
  mkComponent (co_name c) (co_description c) (co_version c) (co_license c)
    (co_author c) (co_homepage c) (co_exec c) (co_textdomain c)
    (co_engines c ++ [d]).

Definition gbool (b : bool) : gboolean := if b then TRUE else FALSE.

Definition mock_respond (T : Type) (c : ibus_call T) (m : Mock) : T * Mock :=
  match c in ibus_call T return T * Mock with
  | ibus_init => (tt, m)
  | ibus_quit => (tt, m)
  | ibus_bus_new => fresh_if (bus_available m) m
  | ibus_bus_is_connected bus =>
      (match connected_from m with
       | Some a => gbool (a <=? bus)%N
       | None => FALSE
       end, m)
  | ibus_bus_get_connection _ => fresh_if (transport_available m) m
  | ibus_factory_new _ => fresh_if (factory_available m) m
  | g_signal_connect _ _ _ _ => (1%N, m)
  | ibus_dikt_engine_get_type => (80%N, m)
  | ibus_factory_add_engine _ _ _ => (tt, m)
  | ibus_bus_request_name _ _ _ => (name_reply m, m)
  | ibus_component_new n d v l a h e t =>
      (next_addr m,
       alloc (with_components
                ((next_addr m, mkComponent n d v l a h e t []) :: components m)
                m))
  | ibus_engine_desc_new n ln d lang l a i lay =>
      (next_addr m,
       alloc (with_descs
                ((next_addr m, mkEngineDesc n ln d lang l a i lay) :: descs m)
                m))
  | ibus_component_add_engine comp desc =>
      (tt,
       match lookup comp (components m), lookup desc (descs m) with
       | Some c, Some d =>
           with_components ((comp, add_engine_to d c) :: components m) m
       | _, _ => m
       end)
  | ibus_bus_register_component _ comp =>
      match lookup comp (components m) with
      | Some c => (TRUE, with_registered (registered m ++ [c]) m)
      | None => (FALSE, m)
      end
  | g_object_unref _ => (tt, m)
  | ibus_bus_set_global_engine _ n =>
      (switch_reply m,
       if c_true (switch_reply m) then with_global_engine (Some n) m else m)
  | ibus_bus_get_global_engine _ =>
      match global_engine m with
      | Some n =>
          (next_addr m,
           alloc (with_descs
                    ((next_addr m,
                      mkEngineDesc n n n "other" "GPL" "IBus" n "default")
                       :: descs m) m))
      | None => (NULL, m)
      end
  | ibus_engine_desc_get_name d =>
      (option_map ed_name (lookup d (descs m)), m)
  | g_strdup s => (Some s, m)
  | fprintf_stderr msg => (tt, with_stderr (stderr m ++ [msg]) m)
  | invoke_key_event cb ctx engine keyval _ _ =>
      (gbool (keyval =? 32)%N,
       with_host_log (host_log m ++ [(cb, ctx, engine)]) m)
  | invoke_engine_cb cb ctx engine =>
      (tt, with_host_log (host_log m ++ [(cb, ctx, engine)]) m)
  | parent_class_destroy _ => (tt, m)
  end.

#[export] Instance mock_framework : Framework Mock := mock_respond.

(** A session whose IBus daemon is up and answers every request. *)
Definition mock_up : Mock :=
  mkMock 16 true (Some 0%N) true true IBUS_BUS_NAME_REQUESTED_PRIMARY TRUE
    (Some "xkb:us::eng"%string) [] [] [] [] [].

(** The same session with the daemon gone. *)
Definition mock_down : Mock := with_connected_from None mock_up.

(** A freshly started process. *)
Definition start {W : Type} (w : W) : State W := mkState globals0 w [].

(** The events a run added to the trace it started from. *)
Definition added {W : Type} (s s' : State W) : list event :=
  skipn (List.length (trace s)) (trace s').

(** ** What a run of [ibus_dikt_init] can look like

    [init_run mode g code g' evs]: started with statics [g], the run returns
    [code], leaves statics [g'] and makes the calls [evs]. One constructor
    per [return] statement of the function, the last two for the two
    registration modes. *)

Definition init_prologue (bus : ptr) (connected : gboolean) (conn factory : ptr)
  (handler : gulong) (engine_type : GType) : list event :=
  [ Ev ibus_init tt;
    Ev ibus_bus_new bus;
    Ev (ibus_bus_is_connected bus) connected;
    Ev (ibus_bus_get_connection bus) conn;
    Ev (ibus_factory_new conn) factory;
    Ev (g_signal_connect bus "disconnected" G_CALLBACK_ibus_disconnected_cb
          NULL) handler;
    Ev ibus_dikt_engine_get_type engine_type;
    Ev (ibus_factory_add_engine factory "dikt" engine_type) tt ].

(** The diagnostic of the IBus-managed branch: nothing for the two
    acceptable answers, one warning line for any other. *)
Definition name_warning (result : guint) : list event :=
  if negb (result =? 1)%N && negb (result =? 2)%N
  then [ Ev (fprintf_stderr
               ("Warning: Failed to acquire IBus name: " ++ fmt_u result ++ LF))
            tt ]
  else [].

Definition the_component {bld : Build} : ibus_call ptr :=
  ibus_component_new "org.freedesktop.IBus.Dikt" "Dikt Speech-to-Text"
    DIKT_VERSION "MIT" "Dikt Team" "https://github.com/rohithmahesh3/Dikt"
    EmptyString "dikt-ibus".

Definition the_engine_desc : ibus_call ptr :=
  ibus_engine_desc_new "dikt" "Dikt" "Dikt speech-to-text dictation" "other"
    "MIT" "Dikt Team" "dikt" "default".

Inductive init_run {bld : Build} (g : Globals)
  : bool -> Z -> Globals -> list event -> Prop :=
| init_no_bus mode :
    init_run g mode 1 g
      [ Ev ibus_init tt;
        Ev ibus_bus_new NULL;
        Ev (fprintf_stderr ("Failed to create IBus bus" ++ LF)) tt ]
| init_not_connected mode bus :
    bus <> NULL ->
    init_run g mode 2 g
      [ Ev ibus_init tt;
        Ev ibus_bus_new bus;
        Ev (ibus_bus_is_connected bus) FALSE;
        Ev (fprintf_stderr ("IBus daemon not running" ++ LF)) tt;
        Ev (g_object_unref bus) tt ]
| init_no_connection mode bus connected :
    bus <> NULL -> connected <> FALSE ->
    init_run g mode 3 g
      [ Ev ibus_init tt;
        Ev ibus_bus_new bus;
        Ev (ibus_bus_is_connected bus) connected;
        Ev (ibus_bus_get_connection bus) NULL;
        Ev (fprintf_stderr ("IBus bus has no connection" ++ LF)) tt;
        Ev (g_object_unref bus) tt ]
| init_no_factory mode bus connected conn :
    bus <> NULL -> connected <> FALSE -> conn <> NULL ->
    init_run g mode 4 g
      [ Ev ibus_init tt;
        Ev ibus_bus_new bus;
        Ev (ibus_bus_is_connected bus) connected;
        Ev (ibus_bus_get_connection bus) conn;
        Ev (ibus_factory_new conn) NULL;
        Ev (fprintf_stderr ("Failed to create IBus factory" ++ LF)) tt;
        Ev (g_object_unref bus) tt ]
| init_managed bus connected conn factory handler engine_type result :
    bus <> NULL -> connected <> FALSE -> conn <> NULL -> factory <> NULL ->
    init_run g true 0 (set_global_factory factory (set_global_bus bus g))
      (init_prologue bus connected conn factory handler engine_type
         ++ Ev (ibus_bus_request_name bus "org.freedesktop.IBus.Dikt" 0%N)
              result
         :: name_warning result)
| init_self_registered bus connected conn factory handler engine_type
    component desc registered_ok :
    bus <> NULL -> connected <> FALSE -> conn <> NULL -> factory <> NULL ->
    init_run g false 0 (set_global_factory factory (set_global_bus bus g))
      (init_prologue bus connected conn factory handler engine_type
         ++ [ Ev the_component component;
              Ev the_engine_desc desc;
              Ev (ibus_component_add_engine component desc) tt;
              Ev (ibus_bus_register_component bus component) registered_ok;
              Ev (g_object_unref component) tt ]).

(** ** The staged checks of init, in the spec's words

    Steps 2 to 5 of the protocol: the calls that test a step, in the order
    they are made, and the exit code they decide. *)
Inductive staged_checks : list event -> Z -> Prop :=
| stage_bus :
    staged_checks [ Ev ibus_bus_new NULL ] 1
| stage_connected bus :
    bus <> NULL ->
    staged_checks
      [ Ev ibus_bus_new bus; Ev (ibus_bus_is_connected bus) FALSE ] 2
| stage_transport bus connected :
    bus <> NULL -> connected <> FALSE ->
    staged_checks
      [ Ev ibus_bus_new bus; Ev (ibus_bus_is_connected bus) connected;
        Ev (ibus_bus_get_connection bus) NULL ] 3
| stage_factory bus connected conn :
    bus <> NULL -> connected <> FALSE -> conn <> NULL ->
    staged_checks
      [ Ev ibus_bus_new bus; Ev (ibus_bus_is_connected bus) connected;
        Ev (ibus_bus_get_connection bus) conn;
        Ev (ibus_factory_new conn) NULL ] 4
| stage_passed bus connected conn factory :
    bus <> NULL -> connected <> FALSE -> conn <> NULL -> factory <> NULL ->
    staged_checks
      [ Ev ibus_bus_new bus; Ev (ibus_bus_is_connected bus) connected;
        Ev (ibus_bus_get_connection bus) conn;
        Ev (ibus_factory_new conn) factory ] 0.

(** ** What a run of [ibus_dikt_daemon_get_bus] can look like *)

(** The runtime initialiser, the first time only. *)
Definition latch_events (g : Globals) : list event :=
  if (daemon_ibus_initialized g =? 0)%N then [ Ev ibus_init tt ] else [].

(** A cached handle found disconnected is given back. *)
Definition stale_release (cached : ptr) : list event :=
  if is_null cached then []
  else [ Ev (ibus_bus_is_connected cached) FALSE;
         Ev (g_object_unref cached) tt ].

(** [cache_run cached result cached' evs]: with [cached] in the cache, the
    accessor returns [result], leaves [cached'] in the cache and makes the
    calls [evs] after the latch. One constructor per [return] statement,
    the second one split on which test failed. *)
Inductive cache_run (cached : ptr) : ptr -> ptr -> list event -> Prop :=
| cache_hit connected :
    cached <> NULL -> connected <> FALSE ->
    cache_run cached cached cached
      [ Ev (ibus_bus_is_connected cached) connected ]
| cache_no_bus :
    cache_run cached NULL NULL
      (stale_release cached ++ [ Ev ibus_bus_new NULL ])
| cache_not_connected fresh :
    fresh <> NULL ->
    cache_run cached NULL NULL
      (stale_release cached
         ++ [ Ev ibus_bus_new fresh;
              Ev (ibus_bus_is_connected fresh) FALSE;
              Ev (g_object_unref fresh) tt ])
| cache_refill fresh connected :
    fresh <> NULL -> connected <> FALSE ->
    cache_run cached fresh fresh
      (stale_release cached
         ++ [ Ev ibus_bus_new fresh;
              Ev (ibus_bus_is_connected fresh) connected ]).

(** The cache holds a reference exactly when it is not null. *)
Definition held (g : Globals) : Z :=
  if is_null (daemon_cached_bus g) then 0%Z else 1%Z.

(** ** Concrete states on the mock *)

(** The mock runs are those of a build that does not define
    [DIKT_VERSION]. *)
#[export] Existing Instance default_build.

(** A host that installed a context at 4096 and its six callbacks at
    4097..4102, before init. *)
Definition installed : State Mock :=
  snd (ibus_dikt_set_callback 4096 4097 4098 4099 4100 4101 4102
         (start mock_up)).

(** The main process after a successful IBus-managed init. *)
Definition running : State Mock := snd (ibus_dikt_init true (start mock_up)).

(** The daemon process after one successful engine switch: the cache is
    filled. *)
Definition daemon_warm : State Mock :=
  snd (ibus_dikt_daemon_set_global_engine (Some "dikt"%string)
         (start mock_up)).

(** The same process once its connection has dropped: the handle at 16 is
    dead, a new one would connect. *)
Definition daemon_cut : State Mock :=
  mkState (globals daemon_warm)
    (with_connected_from (Some 17%N) (world daemon_warm)) (trace daemon_warm).

(** The same process once the IBus daemon has gone away altogether. *)
Definition daemon_lost : State Mock :=
  mkState (globals daemon_warm)
    (with_connected_from None (world daemon_warm)) (trace daemon_warm).

(** ** Groups of statics *)

(** The callback table: the context and the six slots. *)
Definition callbacks (g : Globals) : list ptr :=
  [ global_context g; global_key_event_cb g; global_focus_in_cb g;
    global_focus_out_cb g; global_reset_cb g; global_enable_cb g;
    global_disable_cb g ].

(** The handles of the main process, and those of the daemon side. *)
Definition main_statics (g : Globals) : ptr * ptr :=
  (global_bus g, global_factory g).

Definition daemon_statics (g : Globals) : gsize * ptr :=
  (daemon_ibus_initialized g, daemon_cached_bus g).

(** The slot an install gives to an event. *)
Definition installed_slot (ev : engine_event)
  (key_event_cb focus_in_cb focus_out_cb reset_cb enable_cb disable_cb : ptr)
  : ptr :=
  match ev with
  | KeyEvent _ _ _ => key_event_cb
  | FocusIn => focus_in_cb
  | FocusOut => focus_out_cb
  | Reset => reset_cb
  | Enable => enable_cb
  | Disable => disable_cb
  end.

(** The bus and the factory are published together or not at all. *)
Definition paired (g : Globals) : Prop :=
  is_null (global_bus g) = is_null (global_factory g).

(** ** Sequences of main-process calls *)

Inductive main_op : Type :=
| Install (ctx key_event_cb focus_in_cb focus_out_cb reset_cb enable_cb
             disable_cb : ptr)
| Init (ibus_mode : bool)
| Cleanup
| Control (op : cs_op)
| Dispatch (engine : ptr) (ev : engine_event)
| Disconnected (bus user_data : ptr).

Definition is_install (op : main_op) : bool :=
  match op with
  | Install _ _ _ _ _ _ _ => true
  | _ => false
  end.

Definition run_main_op {W : Type} {fw : Framework W} {bld : Build}
  (op : main_op) : M W unit :=
  match op with
  | Install ctx k fi fo r e d => ibus_dikt_set_callback ctx k fi fo r e d
  | Init ibus_mode => bind (ibus_dikt_init ibus_mode) (fun _ => ret tt)
  | Cleanup => ibus_dikt_cleanup
  | Control op => bind (run_cs_op op) (fun _ => ret tt)
  | Dispatch engine ev =>
      bind (fire (ibus_dikt_engine_class_init parent_class) engine ev)
        (fun _ => ret tt)
  | Disconnected bus user_data => ibus_disconnected_cb bus user_data
  end.

Fixpoint run_main_ops {W : Type} {fw : Framework W} {bld : Build}
  (ops : list main_op) : M W unit :=
  match ops with
  | [] => ret tt
  | op :: rest => bind (run_main_op op) (fun _ => run_main_ops rest)
  end.

(** ** Reference accounting on a trace

    The wrapper owns what [ibus_bus_new], [ibus_factory_new],
    [ibus_component_new] and [ibus_bus_get_global_engine] hand to it, when
    the answer is not null, and gives a reference back with
    [g_object_unref] on a non-null object. The engine descriptor built
    during init goes to the component in the same statement and is never
    the wrapper's to release. *)
Definition takes_ref (e : event) : bool :=
  match e with
  | Ev c r =>
      match c in ibus_call T return T -> bool with
      | ibus_bus_new => fun p => negb (is_null p)
      | ibus_factory_new _ => fun p => negb (is_null p)
      | ibus_component_new _ _ _ _ _ _ _ _ => fun p => negb (is_null p)
      | ibus_bus_get_global_engine _ => fun p => negb (is_null p)
      | _ => fun _ => false
      end r
  end.

Definition gives_ref (e : event) : bool :=
  match e with
  | Ev c _ =>
      match c with
      | g_object_unref p => negb (is_null p)
      | _ => false
      end
  end.

Definition ref_balance (evs : list event) : Z :=
  (Z.of_nat (count takes_ref evs) - Z.of_nat (count gives_ref evs))%Z.

(** The references the main process has published in its statics. *)
Definition published (g : Globals) : Z :=
  ((if is_null (global_bus g) then 0 else 1)
   + (if is_null (global_factory g) then 0 else 1))%Z.

Definition is_ibus_init (e : event) : bool :=
  match e with
  | Ev c _ => match c with ibus_init => true | _ => false end
  end.

(** The lines written to standard error, in order. *)
Fixpoint stderr_lines (evs : list event) : list string :=
  match evs with
  | [] => []
  | Ev c _ :: rest =>
      match c with
      | fprintf_stderr msg => msg :: stderr_lines rest
      | _ => stderr_lines rest
      end
  end.

(** The diagnostic of each failing stage of init (wrapper.c, lines 136, 141,
    148 and 155). *)
Definition stage_diagnostic (code : Z) : list string :=
  match code with
  | 1%Z => [ ("Failed to create IBus bus" ++ LF)%string ]
  | 2%Z => [ ("IBus daemon not running" ++ LF)%string ]
  | 3%Z => [ ("IBus bus has no connection" ++ LF)%string ]
  | 4%Z => [ ("Failed to create IBus factory" ++ LF)%string ]
  | _ => []
  end.

(** ** What reading the global engine's name can look like

    [read_run bus result evs]: one constructor per [return] of lines
    217-225, the last one covering both arms of the conditional on the
    name. *)
Inductive read_run (bus : ptr) : gchar_p -> list event -> Prop :=
| read_no_engine :
    read_run bus None [ Ev (ibus_bus_get_global_engine bus) NULL ]
| read_unnamed desc :
    desc <> NULL ->
    read_run bus None
      [ Ev (ibus_bus_get_global_engine bus) desc;
        Ev (ibus_engine_desc_get_name desc) None;
        Ev (g_object_unref desc) tt ]
| read_named desc name copy :
    desc <> NULL ->
    read_run bus copy
      [ Ev (ibus_bus_get_global_engine bus) desc;
        Ev (ibus_engine_desc_get_name desc) (Some name);
        Ev (g_strdup name) copy;
        Ev (g_object_unref desc) tt ].

(** ** What the two main-process control calls can look like *)

(** [switch_run bus name r evs]: with [bus] published and the argument
    [name], [ibus_dikt_set_global_engine] returns [r] after the calls
    [evs]. The first three constructors are the three ways the guard of
    line 205 fails. *)
Inductive switch_run (bus : ptr) : gchar_p -> gboolean -> list event -> Prop :=
| switch_unpublished name :
    bus = NULL -> switch_run bus name FALSE []
| switch_null_name :
    bus <> NULL -> switch_run bus None FALSE []
| switch_disconnected name :
    bus <> NULL ->
    switch_run bus (Some name) FALSE [ Ev (ibus_bus_is_connected bus) FALSE ]
| switch_sent name connected r :
    bus <> NULL -> connected <> FALSE ->
    switch_run bus (Some name) r
      [ Ev (ibus_bus_is_connected bus) connected;
        Ev (ibus_bus_set_global_engine bus name) r ].

(** [get_run bus r evs]: the same for [ibus_dikt_get_global_engine_name]. *)
Inductive get_run (bus : ptr) : gchar_p -> list event -> Prop :=
| get_unpublished :
    bus = NULL -> get_run bus None []
| get_disconnected :
    bus <> NULL ->
    get_run bus None [ Ev (ibus_bus_is_connected bus) FALSE ]
| get_read connected r evs :
    bus <> NULL -> connected <> FALSE -> read_run bus r evs ->
    get_run bus r (Ev (ibus_bus_is_connected bus) connected :: evs).

(** ** What a daemon-side operation can look like *)

(** The arguments line 263 turns away before the accessor is called. *)
Definition rejects (op : cs_op) : bool :=
  match op with
  | SetGlobalEngine None => true
  | SetGlobalEngine (Some name) => (strlen name =? 0)%N
  | GetGlobalEngineName => false
  end.

(** [daemon_tail bus op r evs]: what the operation does with the handle
    [bus] the accessor returned (lines 268-272 and 277-289). *)
Inductive daemon_tail (bus : ptr) : cs_op -> cs_result -> list event -> Prop :=
| tail_refused_switch name :
    bus = NULL ->
    daemon_tail bus (SetGlobalEngine (Some name)) (SetResult FALSE) []
| tail_refused_read :
    bus = NULL ->
    daemon_tail bus GetGlobalEngineName (GetResult None) []
| tail_switch name r :
    bus <> NULL ->
    daemon_tail bus (SetGlobalEngine (Some name)) (SetResult r)
      [ Ev (ibus_bus_set_global_engine bus name) r ]
| tail_read r evs :
    bus <> NULL -> read_run bus r evs ->
    daemon_tail bus GetGlobalEngineName (GetResult r) evs.

(** [daemon_step d op r d' evs]: one daemon-side operation, started with
    latch and cached bus [d], answers [r], leaves latch and cached bus [d']
    and makes the calls [evs]: nothing at all for a rejected argument,
    otherwise the latch, one access of the cache, and the operation on the
    handle that access returned. *)
Inductive daemon_step (d : gsize * ptr) (op : cs_op)
  : cs_result -> gsize * ptr -> list event -> Prop :=
| step_rejected :
    rejects op = true ->
    daemon_step d op (SetResult FALSE) d []
| step_access bus cached' evs r tail :
    rejects op = false ->
    cache_run (snd d) bus cached' evs ->
    daemon_tail bus op r tail ->
    daemon_step d op r
      ((if (fst d =? 0)%N then 1%N else fst d), cached')
      ((if (fst d =? 0)%N then [ Ev ibus_init tt ] else []) ++ evs ++ tail).

(** A sequence of daemon-side operations: each one starts with the latch
    and the cached bus the one before left. *)
Inductive daemon_history
  : gsize * ptr -> list cs_op -> list cs_result -> gsize * ptr -> list event
    -> Prop :=
| history_done d :
    daemon_history d [] [] d []
| history_more d op ops r rs d1 d2 evs1 evs2 :
    daemon_step d op r d1 evs1 ->
    daemon_history d1 ops rs d2 evs2 ->
    daemon_history d (op :: ops) (r :: rs) d2 (evs1 ++ evs2).

(** ** The handles taken and given back, one by one *)

(** The object a call hands to the wrapper, if any. *)
Definition taken_by (e : event) : list ptr :=
  match e with
  | Ev c r =>
      match c in ibus_call T return T -> list ptr with
      | ibus_bus_new => fun p => if is_null p then [] else [p]
      | ibus_factory_new _ => fun p => if is_null p then [] else [p]
      | ibus_component_new _ _ _ _ _ _ _ _ =>
          fun p => if is_null p then [] else [p]
      | ibus_bus_get_global_engine _ => fun p => if is_null p then [] else [p]
      | _ => fun _ => []
      end r
  end.

(** The object a call gives back, if any. *)
Definition given_by (e : event) : list ptr :=
  match e with
  | Ev c _ =>
      match c with
      | g_object_unref p => if is_null p then [] else [p]
      | _ => []
      end
  end.

Definition taken (evs : list event) : list ptr := flat_map taken_by evs.
Definition given (evs : list event) : list ptr := flat_map given_by evs.

(** ** A second init that fails *)

Definition with_factory_available (b : bool) (m : Mock) : Mock :=
  mkMock (next_addr m) (bus_available m) (connected_from m)
    (transport_available m) b (name_reply m)
    (switch_reply m) (global_engine m) (components m) (descs m)
    (registered m) (stderr m) (host_log m).

(** The running process at a moment when the framework can no longer
    create a factory. *)
Definition running_factory_lost : State Mock :=
  mkState (globals running) (with_factory_available false (world running))
    (trace running).

(** * Proofs *)

(** ** Small facts about C values *)

Lemma is_null_true (p : ptr) : is_null p = true -> p = NULL.
Proof. unfold is_null, NULL. intro H. now apply N.eqb_eq in H. Qed.

Lemma is_null_false (p : ptr) : is_null p = false -> p <> NULL.
Proof. unfold is_null, NULL. intro H. now apply N.eqb_neq in H. Qed.

Lemma is_null_NULL : is_null NULL = true.
Proof. reflexivity. Qed.

Lemma is_null_neq (p : ptr) : p <> NULL -> is_null p = false.
Proof. unfold is_null, NULL. intro H. now apply N.eqb_neq. Qed.

Lemma c_true_false (b : gboolean) : c_true b = false -> b = FALSE.
Proof.
  unfold c_true, FALSE. intro H. apply negb_false_iff in H.
  now apply Z.eqb_eq in H.
Qed.

Lemma c_true_true (b : gboolean) : c_true b = true -> b <> FALSE.
Proof.
  unfold c_true, FALSE. intro H. apply negb_true_iff in H.
  now apply Z.eqb_neq in H.
Qed.

Lemma c_true_neq (b : gboolean) : b <> FALSE -> c_true b = true.
Proof.
  unfold c_true, FALSE. intro H. apply negb_true_iff. now apply Z.eqb_neq.
Qed.

Lemma added_app {W : Type} (s s' : State W) (evs : list event) :
  trace s' = trace s ++ evs -> added s s' = evs.
Proof.
  unfold added. intro H. rewrite H.
  rewrite skipn_app, skipn_all, Nat.sub_diag. reflexivity.
Qed.

Lemma count_app (f : event -> bool) (l1 l2 : list event) :
  count f (l1 ++ l2) = count f l1 + count f l2.
Proof. unfold count. now rewrite filter_app, length_app. Qed.

Lemma outstanding_app (l1 l2 : list event) :
  outstanding (l1 ++ l2) = (outstanding l1 + outstanding l2)%Z.
Proof. unfold outstanding. rewrite !count_app. lia. Qed.

(** ** Stepping through a run *)

(** Name the answer of the next foreign call. *)
Ltac answer :=
  match goal with
  | |- context [respond ?c ?w] =>
      let r := fresh "r" in
      let w' := fresh "w" in
      destruct (respond c w) as [r w'] eqn:?;
      match type of r with
      | unit => destruct r
      | _ => idtac
      end; cbn
  end.

(** Decide the next pointer or boolean test. *)
Ltac branch :=
  match goal with
  | |- context [is_null ?p] =>
      let E := fresh "E" in
      destruct (is_null p) eqn:E;
      [apply is_null_true in E | apply is_null_false in E]; cbn
  | |- context [c_true ?b] =>
      let E := fresh "E" in
      destruct (c_true b) eqn:E;
      [apply c_true_true in E | apply c_true_false in E]; cbn
  end.

(** Bring the trace to the form [t ++ [e1; ...; en]]. *)
Ltac flat := rewrite <- ?app_assoc; cbn [app].

Section Init.

Context {W : Type} {fw : Framework W} {bld : Build}.

Lemma ibus_dikt_init_run (mode : bool) (s : State W) :
  exists evs,
    trace (snd (ibus_dikt_init mode s)) = trace s ++ evs /\
    init_run (globals s) mode (fst (ibus_dikt_init mode s))
      (globals (snd (ibus_dikt_init mode s))) evs.
Proof.
  unfold ibus_dikt_init, bind, call, ret, gets, modify.
  destruct s as [g w t]. cbn.
  answer. answer. branch.
  - subst. answer. flat. eexists; split; [reflexivity | constructor].
  - answer. branch.
    + answer. branch.
      * subst. answer. answer. flat.
        eexists; split; [reflexivity | now constructor].
      * answer. branch.
        -- subst. answer. answer. flat.
           eexists; split; [reflexivity | now constructor].
        -- answer. answer. answer. destruct mode; cbn.
           ++ answer.
              match goal with
              | |- context [Ev (ibus_bus_request_name _ _ _) ?r] =>
                  pose proof (fun b c cn f h ty =>
                                @init_managed bld g b c cn f h ty r) as Hrun
              end.
              unfold name_warning in Hrun.
              unfold IBUS_BUS_NAME_REQUESTED_PRIMARY,
                IBUS_BUS_NAME_REQUESTED_REPLACED.
              destruct (negb (_ =? 1)%N && negb (_ =? 2)%N); cbn.
              ** answer. flat.
                 eexists; split; [reflexivity | apply Hrun; assumption].
              ** flat.
                 eexists; split; [reflexivity | apply Hrun; assumption].
           ++ answer. answer. answer. answer. answer. flat.
              eexists; split;
                [reflexivity | apply init_self_registered; assumption].
    + subst. answer. answer. flat.
      eexists; split; [reflexivity | now constructor].
Qed.

(** Without a published bus the control surface refuses everything, makes
    no foreign call and changes nothing. *)
Lemma set_global_engine_no_bus (n : gchar_p) (s : State W) :
  global_bus (globals s) = NULL ->
  ibus_dikt_set_global_engine n s = (FALSE, s).
Proof.
  intro H. unfold ibus_dikt_set_global_engine, bind, gets, ret.
  rewrite H. reflexivity.
Qed.

Lemma get_global_engine_name_no_bus (s : State W) :
  global_bus (globals s) = NULL ->
  ibus_dikt_get_global_engine_name s = (None, s).
Proof.
  intro H. unfold ibus_dikt_get_global_engine_name, bind, gets, ret.
  rewrite H. reflexivity.
Qed.

Lemma run_cs_ops_no_bus_eq (ops : list cs_op) (s : State W) :
  global_bus (globals s) = NULL ->
  exists rs, run_cs_ops ops s = (rs, s) /\ forallb refused rs = true.
Proof.
  intro H. induction ops as [|op ops IH]; [now exists []|].
  assert (Hop : exists r, run_cs_op op s = (r, s) /\ refused r = true).
  { destruct op as [n|]; unfold run_cs_op, bind.
    - rewrite (set_global_engine_no_bus n s H). now eexists.
    - rewrite (get_global_engine_name_no_bus s H). now eexists. }
  destruct Hop as (r & Hop & Hr). destruct IH as (rs & IH & Hrs).
  exists (r :: rs). cbn [run_cs_ops]. unfold bind. rewrite Hop, IH.
  split; [reflexivity|]. cbn. now rewrite Hr, Hrs.
Qed.

Lemma run_cs_ops_no_bus (ops : list cs_op) (s : State W) :
  global_bus (globals s) = NULL ->
  forallb refused (fst (run_cs_ops ops s)) = true /\
  snd (run_cs_ops ops s) = s.
Proof.
  intro H. destruct (run_cs_ops_no_bus_eq ops s H) as (rs & E & Hrs).
  rewrite E. now split.
Qed.

(** C1. Every run of [ibus_dikt_init], in either mode and from any state,
    tests the four steps in the order "new bus, bus connected, transport,
    factory", stops testing at the first step that fails, and returns 1, 2,
    3 or 4 for a failure of the first, second, third or fourth step and 0
    when all four pass. *)
Theorem init_exit_code_by_stage (mode : bool) (s : State W) :
  staged_checks
    (filter is_stage_call (added s (snd (ibus_dikt_init mode s))))
    (fst (ibus_dikt_init mode s)).
Proof.
  destruct (ibus_dikt_init_run mode s) as (evs & Ht & Hrun).
  rewrite (added_app _ _ _ Ht).
  destruct Hrun; unfold init_prologue, name_warning; cbn;
    try (constructor; assumption).
  destruct (negb (result =? 1)%N && negb (result =? 2)%N); cbn;
    constructor; assumption.
Qed.

(** C5. Every run of [ibus_dikt_init] in self-registered mode that returns
    0, in any build, ends with these five calls: a component is built from
    the eight fields of the spec, seven of them literals and the version the
    build's [DIKT_VERSION] (which is "unknown" in the default build), one
    engine descriptor is built from its eight literals and added to that
    component, the component is registered on the bus that init publishes,
    and the caller's reference to the component is dropped last. No other
    descriptor is added: the calls before are those of the common
    prologue. *)
Theorem self_registered_component (s : State W) :
  fst (ibus_dikt_init false s) = 0%Z ->
  (bld = default_build -> DIKT_VERSION = "unknown"%string) /\
  exists bus connected conn factory handler engine_type component desc
         registered_ok,
    global_bus (globals (snd (ibus_dikt_init false s))) = bus /\
    added s (snd (ibus_dikt_init false s)) =
      init_prologue bus connected conn factory handler engine_type
        ++ [ Ev (ibus_component_new "org.freedesktop.IBus.Dikt"
                   "Dikt Speech-to-Text" DIKT_VERSION "MIT" "Dikt Team"
                   "https://github.com/rohithmahesh3/Dikt" EmptyString
                   "dikt-ibus") component;
             Ev (ibus_engine_desc_new "dikt" "Dikt"
                   "Dikt speech-to-text dictation" "other" "MIT" "Dikt Team"
                   "dikt" "default") desc;
             Ev (ibus_component_add_engine component desc) tt;
             Ev (ibus_bus_register_component bus component) registered_ok;
             Ev (g_object_unref component) tt ].
Proof.
  intro H0. split; [intro Hb; rewrite Hb; reflexivity|].
  destruct (ibus_dikt_init_run false s) as (evs & Ht & Hrun).
  rewrite (added_app _ _ _ Ht). rewrite H0 in Hrun.
  inversion Hrun; subst.
  exists bus, connected, conn, factory, handler, engine_type, component, desc,
    registered_ok.
  split; reflexivity.
Qed.

(** C6. A run of [ibus_dikt_init] in IBus-managed mode goes one of two
    ways. Either all four staged checks pass (bus, connection answer,
    transport and factory all non-null), and then the run sets up the
    factory, publishes that bus and that factory, requests the name
    "org.freedesktop.IBus.Dikt" with flags 0 as its next call, writes the
    warning line exactly when the answer is neither 1 (primary owner) nor 2
    (replaced), makes no further call, and returns 0 whatever the answer
    was. Or one of the four staged checks fails, the code is the one of
    that stage (1..4), no name is requested and no static is written. *)
Theorem managed_name_request_never_fails_init (s : State W) :
  let r := ibus_dikt_init true s in
  (exists bus connected conn factory handler engine_type result,
     bus <> NULL /\ connected <> FALSE /\ conn <> NULL /\ factory <> NULL /\
     fst r = 0%Z /\
     global_bus (globals (snd r)) = bus /\
     global_factory (globals (snd r)) = factory /\
     added s (snd r) =
       init_prologue bus connected conn factory handler engine_type
         ++ Ev (ibus_bus_request_name bus "org.freedesktop.IBus.Dikt" 0%N)
              result
         :: (if (result =? 1)%N || (result =? 2)%N then []
             else [ Ev (fprintf_stderr
                          ("Warning: Failed to acquire IBus name: "
                             ++ fmt_u result ++ LF)) tt ]))
  \/
  ((1 <= fst r <= 4)%Z /\
   staged_checks (filter is_stage_call (added s (snd r))) (fst r) /\
   count is_request_name (added s (snd r)) = 0 /\
   globals (snd r) = globals s).
Proof.
  cbv zeta.
  destruct (ibus_dikt_init_run true s) as (evs & Ht & Hrun).
  rewrite (added_app _ _ _ Ht).
  remember (fst (ibus_dikt_init true s)) as code eqn:Ec.
  remember (globals (snd (ibus_dikt_init true s))) as g' eqn:Eg.
  remember true as mode eqn:Em.
  destruct Hrun; try discriminate;
    try (right; split; [lia|]; split;
         [cbn; constructor; assumption | split; reflexivity]).
  left.
  exists bus, connected, conn, factory, handler, engine_type, result.
  repeat (split; [assumption || reflexivity|]).
  unfold name_warning.
  destruct (result =? 1)%N, (result =? 2)%N; reflexivity.
Qed.

(** A failing run leaves every static as it was. *)
Lemma init_failure_keeps_globals (mode : bool) (s : State W) :
  fst (ibus_dikt_init mode s) <> 0%Z ->
  globals (snd (ibus_dikt_init mode s)) = globals s.
Proof.
  intro Hcode.
  destruct (ibus_dikt_init_run mode s) as (evs & _ & Hrun).
  remember (fst (ibus_dikt_init mode s)) as code eqn:Ec.
  remember (globals (snd (ibus_dikt_init mode s))) as g' eqn:Eg.
  destruct Hrun; congruence.
Qed.

(** C10, as amended. When [ibus_dikt_init] returns a nonzero code, the code
    is one of 1..4, no static has changed, and the run asked for one bus
    and, if it got one, released exactly that one and nothing else. So if no
    bus and no factory were published before the call, none is published
    after, and every later set_global_engine answers FALSE and every later
    get_global_engine_name answers none, without a foreign call. (Handles
    that an earlier init published stay published: see
    [failed_init_keeps_published_handles].) *)
Theorem failed_init_publishes_nothing
  (mode : bool) (s : State W) (ops : list cs_op) :
  fst (ibus_dikt_init mode s) <> 0%Z ->
  let s' := snd (ibus_dikt_init mode s) in
  (1 <= fst (ibus_dikt_init mode s) <= 4)%Z /\
  globals s' = globals s /\
  (exists bus,
      filter is_bus_new (added s s') = [ Ev ibus_bus_new bus ] /\
      filter is_unref (added s s') =
        if is_null bus then [] else [ Ev (g_object_unref bus) tt ]) /\
  (global_bus (globals s) = NULL ->
   global_factory (globals s) = NULL ->
   global_bus (globals s') = NULL /\
   global_factory (globals s') = NULL /\
   forallb refused (fst (run_cs_ops ops s')) = true /\
   snd (run_cs_ops ops s') = s').
Proof.
  intros Hcode. cbv zeta.
  pose proof (init_failure_keeps_globals mode s Hcode) as Hg.
  destruct (ibus_dikt_init_run mode s) as (evs & Ht & Hrun).
  rewrite (added_app _ _ _ Ht).
  split; [|split; [exact Hg|split]].
  - remember (fst (ibus_dikt_init mode s)) as code eqn:Ec.
    destruct Hrun; lia.
  - remember (fst (ibus_dikt_init mode s)) as code eqn:Ec.
    remember (globals (snd (ibus_dikt_init mode s))) as g' eqn:Eg.
    destruct Hrun; try congruence.
    + exists NULL. now split.
    + exists bus. cbn. now rewrite (is_null_neq H).
    + exists bus. cbn. now rewrite (is_null_neq H).
    + exists bus. cbn. now rewrite (is_null_neq H).
  - intros Hbus Hfac. rewrite Hg.
    split; [exact Hbus|]. split; [exact Hfac|].
    apply run_cs_ops_no_bus. now rewrite Hg.
Qed.

End Init.

Section Engine.

Context {W : Type} {fw : Framework W} {bld : Build}.

(** C2. For each of the six engine events, fired through the class that
    [ibus_dikt_engine_class_init] sets up, on any engine instance and in any
    state: when the event's slot and the context are both non-null, the run
    is exactly one call of the slot with the context, the engine instance
    and the event's arguments, and a key event answers what that call
    answered; when the slot or the context is null, nothing is called,
    nothing changes, and a key event answers "not consumed" (FALSE). *)
Theorem engine_dispatch
  (klass : IBusDiktEngineClass W) (engine : ptr) (ev : engine_event)
  (s : State W) :
  let k := ibus_dikt_engine_class_init klass in
  let cb := slot_of ev (globals s) in
  let ctx := global_context (globals s) in
  (cb <> NULL /\ ctx <> NULL ->
   fire k engine ev s = forward ev cb ctx engine s) /\
  (cb = NULL \/ ctx = NULL ->
   fire k engine ev s = (not_handled ev, s)).
Proof.
  cbv zeta. split.
  - intros [Hcb Hctx].
    apply is_null_neq in Hcb. apply is_null_neq in Hctx.
    destruct ev; cbn in Hcb |- *;
      unfold ibus_dikt_engine_process_key_event, ibus_dikt_engine_focus_in,
        ibus_dikt_engine_focus_out, ibus_dikt_engine_reset,
        ibus_dikt_engine_enable, ibus_dikt_engine_disable, bind, gets;
      cbn; rewrite Hcb, Hctx; reflexivity.
  - intros Hnull.
    assert (Hc : negb (is_null (slot_of ev (globals s)))
                 && negb (is_null (global_context (globals s))) = false).
    { destruct Hnull as [H | H]; rewrite H, is_null_NULL; cbn;
        [reflexivity | apply andb_false_r]. }
    destruct ev; cbn in Hc |- *;
      unfold ibus_dikt_engine_process_key_event, ibus_dikt_engine_focus_in,
        ibus_dikt_engine_focus_out, ibus_dikt_engine_reset,
        ibus_dikt_engine_enable, ibus_dikt_engine_disable, bind, gets;
      cbn; rewrite Hc; reflexivity.
Qed.

End Engine.

Section Cleanup.

Context {W : Type} {fw : Framework W} {bld : Build}.

(** The calls [ibus_dikt_cleanup] makes: the factory first, then the bus,
    each only when its static is not null. *)
Lemma ibus_dikt_cleanup_run (s : State W) :
  trace (snd (ibus_dikt_cleanup s)) =
    trace s
      ++ (if is_null (global_factory (globals s)) then []
          else [ Ev (g_object_unref (global_factory (globals s))) tt ])
      ++ (if is_null (global_bus (globals s)) then []
          else [ Ev (g_object_unref (global_bus (globals s))) tt ]) /\
  globals (snd (ibus_dikt_cleanup s)) =
    set_global_bus NULL (set_global_factory NULL (globals s)).
Proof.
  unfold ibus_dikt_cleanup, bind, gets, modify, call, ret.
  destruct s as [g w t]. destruct g. cbn.
  repeat first [answer | branch]; subst; flat; cbn;
    rewrite ?app_nil_r; split; reflexivity.
Qed.

(** With both statics null, cleanup does nothing at all. *)
Lemma ibus_dikt_cleanup_nop (s : State W) :
  global_factory (globals s) = NULL ->
  global_bus (globals s) = NULL ->
  ibus_dikt_cleanup s = (tt, s).
Proof.
  intros Hf Hb. unfold ibus_dikt_cleanup, bind, gets, ret.
  destruct s as [g w t]. cbn in *. rewrite Hf. cbn. rewrite Hb. reflexivity.
Qed.

Lemma init_success_publishes (mode : bool) (s : State W) :
  fst (ibus_dikt_init mode s) = 0%Z ->
  exists bus conn factory,
    bus <> NULL /\ factory <> NULL /\
    global_bus (globals (snd (ibus_dikt_init mode s))) = bus /\
    global_factory (globals (snd (ibus_dikt_init mode s))) = factory /\
    filter is_bus_new (added s (snd (ibus_dikt_init mode s))) =
      [ Ev ibus_bus_new bus ] /\
    In (Ev (ibus_factory_new conn) factory)
       (added s (snd (ibus_dikt_init mode s))).
Proof.
  intro H0.
  destruct (ibus_dikt_init_run mode s) as (evs & Ht & Hrun).
  rewrite (added_app _ _ _ Ht).
  remember (fst (ibus_dikt_init mode s)) as code eqn:Ec.
  remember (globals (snd (ibus_dikt_init mode s))) as g' eqn:Eg.
  destruct Hrun; try discriminate;
    exists bus, conn, factory; repeat split; try assumption;
    unfold init_prologue, name_warning; cbn.
  - destruct (negb (result =? 1)%N && negb (result =? 2)%N); reflexivity.
  - tauto.
  - tauto.
Qed.

(** C7. [ibus_dikt_cleanup], in any state [s]: gives back the factory and
    then the bus, each only if its static is not null, and leaves both
    statics null; run again at once it makes no call and changes nothing.
    After an init that returned 0 (from any state [s0]) the first cleanup
    gives back exactly the factory and the bus that init created, once
    each; after an init that failed in a process that had published nothing,
    cleanup makes no call: the bus init had obtained was already released by
    init itself. *)
Theorem cleanup_contract (s : State W) (mode : bool) (s0 : State W) :
  let s1 := snd (ibus_dikt_cleanup s) in
  let i := snd (ibus_dikt_init mode s0) in
  (added s s1 =
     (if is_null (global_factory (globals s)) then []
      else [ Ev (g_object_unref (global_factory (globals s))) tt ])
       ++ (if is_null (global_bus (globals s)) then []
           else [ Ev (g_object_unref (global_bus (globals s))) tt ]) /\
   global_factory (globals s1) = NULL /\
   global_bus (globals s1) = NULL) /\
  ibus_dikt_cleanup s1 = (tt, s1) /\
  (fst (ibus_dikt_init mode s0) = 0%Z ->
   exists bus conn factory,
     filter is_bus_new (added s0 i) = [ Ev ibus_bus_new bus ] /\
     In (Ev (ibus_factory_new conn) factory) (added s0 i) /\
     added i (snd (ibus_dikt_cleanup i)) =
       [ Ev (g_object_unref factory) tt; Ev (g_object_unref bus) tt ] /\
     ibus_dikt_cleanup (snd (ibus_dikt_cleanup i)) =
       (tt, snd (ibus_dikt_cleanup i))) /\
  (fst (ibus_dikt_init mode s0) <> 0%Z ->
   global_bus (globals s0) = NULL ->
   global_factory (globals s0) = NULL ->
   ibus_dikt_cleanup i = (tt, i)).
Proof.
  cbv zeta.
  assert (Htwice : forall x : State W,
             ibus_dikt_cleanup (snd (ibus_dikt_cleanup x)) =
               (tt, snd (ibus_dikt_cleanup x))).
  { intro x. destruct (ibus_dikt_cleanup_run x) as [_ Hg].
    apply ibus_dikt_cleanup_nop; rewrite Hg; reflexivity. }
  destruct (ibus_dikt_cleanup_run s) as [Ht Hg].
  repeat split.
  - apply added_app. exact Ht.
  - rewrite Hg. reflexivity.
  - rewrite Hg. reflexivity.
  - apply Htwice.
  - intro H0.
    destruct (init_success_publishes mode s0 H0)
      as (bus & conn & factory & Hb & Hf & Hgb & Hgf & Hnew & Hin).
    exists bus, conn, factory. repeat split; try assumption.
    + apply added_app.
      destruct (ibus_dikt_cleanup_run (snd (ibus_dikt_init mode s0)))
        as [Ht' _].
      rewrite Ht', Hgb, Hgf, (is_null_neq Hb), (is_null_neq Hf).
      reflexivity.
    + apply Htwice.
  - intros Hcode Hbus Hfac.
    apply ibus_dikt_cleanup_nop;
      rewrite (init_failure_keeps_globals mode s0 Hcode); assumption.
Qed.

End Cleanup.

Section Control.

Context {W : Type} {fw : Framework W} {bld : Build}.

(** C8. After an init that returned 0, cleanup gives back the factory and
    the bus that init had published (both non-null) and nulls both statics;
    from then on every set_global_engine answers FALSE and every
    get_global_engine_name answers none, whatever the arguments and however
    many calls follow, and none of them makes a foreign call. *)
Theorem cleanup_after_init_disables_control_surface
  (mode : bool) (s : State W) (ops : list cs_op) :
  fst (ibus_dikt_init mode s) = 0%Z ->
  let s1 := snd (ibus_dikt_init mode s) in
  let s2 := snd (ibus_dikt_cleanup s1) in
  global_factory (globals s1) <> NULL /\
  global_bus (globals s1) <> NULL /\
  added s1 s2 =
    [ Ev (g_object_unref (global_factory (globals s1))) tt;
      Ev (g_object_unref (global_bus (globals s1))) tt ] /\
  global_factory (globals s2) = NULL /\
  global_bus (globals s2) = NULL /\
  forallb refused (fst (run_cs_ops ops s2)) = true /\
  snd (run_cs_ops ops s2) = s2.
Proof.
  intro H0. cbv zeta.
  destruct (init_success_publishes mode s H0)
    as (bus & conn & factory & Hb & Hf & Hgb & Hgf & _).
  destruct (ibus_dikt_cleanup_run (snd (ibus_dikt_init mode s))) as [Ht Hg].
  assert (Hnull : global_bus
                    (globals (snd (ibus_dikt_cleanup
                                     (snd (ibus_dikt_init mode s))))) = NULL)
    by (rewrite Hg; reflexivity).
  rewrite Hgb, Hgf in *.
  repeat split; try assumption.
  - apply added_app. rewrite Ht, (is_null_neq Hb), (is_null_neq Hf).
    reflexivity.
  - rewrite Hg. reflexivity.
  - apply run_cs_ops_no_bus. exact Hnull.
  - apply run_cs_ops_no_bus. exact Hnull.
Qed.

(** The half of the precondition that [ibus_dikt_set_global_engine] does
    test: a null name is refused without a foreign call. *)
Lemma set_global_engine_null_name (s : State W) :
  ibus_dikt_set_global_engine None s = (FALSE, s).
Proof.
  unfold ibus_dikt_set_global_engine, bind, gets, ret.
  destruct (is_null (global_bus (globals s))); reflexivity.
Qed.

(** The half it does not: with a bus published, the empty name goes to the
    bus like any other name. The connection is queried, and if the bus is
    connected the switch is requested and its answer returned. *)
Lemma set_global_engine_empty_name (s : State W) :
  global_bus (globals s) <> NULL ->
  ibus_dikt_set_global_engine (Some EmptyString) s =
    bind (call (ibus_bus_is_connected (global_bus (globals s))))
      (fun connected =>
         if c_true connected
         then call (ibus_bus_set_global_engine (global_bus (globals s))
                      EmptyString)
         else ret FALSE) s.
Proof.
  intro Hb. unfold ibus_dikt_set_global_engine, bind, gets, ret.
  rewrite (is_null_neq Hb). unfold call.
  destruct (respond (ibus_bus_is_connected (global_bus (globals s))) (world s))
    as [c w1].
  destruct (c_true c); reflexivity.
Qed.

(** C9. [ibus_dikt_daemon_set_global_engine] with a null or an empty name
    answers FALSE and leaves the whole state as it was: the latch is not
    entered, the cache is not read or written, and no foreign call is
    made. *)
Theorem daemon_set_global_engine_rejects_empty
  (engine_name : gchar_p) (s : State W) :
  engine_name = None \/ engine_name = Some EmptyString ->
  ibus_dikt_daemon_set_global_engine engine_name s = (FALSE, s).
Proof.
  intros [H | H]; subst; reflexivity.
Qed.

End Control.

Section DaemonCache.

Context {W : Type} {fw : Framework W} {bld : Build}.

(** Close a goal [cache_run cached r cached' evs] on an explicit [evs]. *)
Ltac by_cache_run :=
  let use H :=
    (let Hc := fresh "Hc" in
     epose proof H as Hc; unfold stale_release in Hc;
     repeat match goal with
       | E : ?p <> NULL |- _ => rewrite (is_null_neq E) in Hc
       end;
     cbn in Hc; eapply Hc; eassumption) in
  match goal with
  | |- cache_run ?c _ _ _ =>
      first [ use (@cache_hit c) | use (@cache_no_bus c)
            | use (@cache_not_connected c) | use (@cache_refill c) ]
  end.

Lemma ibus_dikt_daemon_get_bus_run (s : State W) :
  exists evs,
    trace (snd (ibus_dikt_daemon_get_bus s)) =
      trace s ++ latch_events (globals s) ++ evs /\
    cache_run (daemon_cached_bus (globals s))
      (fst (ibus_dikt_daemon_get_bus s))
      (daemon_cached_bus (globals (snd (ibus_dikt_daemon_get_bus s)))) evs.
Proof.
  unfold ibus_dikt_daemon_get_bus, daemon_ibus_init_once, g_once_init_enter,
    g_once_init_leave, bind, gets, modify, call, ret, latch_events.
  destruct s as [g w t]. destruct g. cbn.
  destruct (daemon_ibus_initialized0 =? 0)%N; cbn;
    repeat first [answer | branch]; subst; cbn;
    eexists; (split; [flat; reflexivity | by_cache_run]).
Qed.

(** Two runs that start alike and continue alike are equal. *)
Lemma bind_cong {A B : Type} (m : M W A) (k1 k2 : A -> M W B) (s : State W) :
  (forall a s', m s = (a, s') -> k1 a s' = k2 a s') ->
  bind m k1 s = bind m k2 s.
Proof.
  intro H. unfold bind. destruct (m s) as [a s'] eqn:E. now apply H.
Qed.

(** The latch never writes the cache. *)
Lemma daemon_ibus_init_once_cache (s : State W) :
  daemon_cached_bus (globals (snd (daemon_ibus_init_once s))) =
    daemon_cached_bus (globals s).
Proof.
  unfold daemon_ibus_init_once, g_once_init_enter, g_once_init_leave,
    bind, gets, modify, call, ret.
  destruct s as [g w t]. destruct g. cbn.
  destruct (daemon_ibus_initialized0 =? 0)%N; cbn; [|reflexivity].
  destruct (respond ibus_init w) as [[] w1]. reflexivity.
Qed.

(** The calls of the latch. *)
Lemma daemon_ibus_init_once_trace (s : State W) :
  trace (snd (daemon_ibus_init_once s)) =
    trace s ++ latch_events (globals s).
Proof.
  unfold daemon_ibus_init_once, g_once_init_enter, g_once_init_leave,
    bind, gets, modify, call, ret, latch_events.
  destruct s as [g w t]. destruct g. cbn.
  destruct (daemon_ibus_initialized0 =? 0)%N; cbn.
  - destruct (respond ibus_init w) as [[] w1]. reflexivity.
  - now rewrite app_nil_r.
Qed.

(** A cache hit, as an equation: the latch, one query of the cached
    handle, and the cached handle is returned; the cache is not written. *)
Lemma ibus_dikt_daemon_get_bus_hit (s : State W) :
  let cached := daemon_cached_bus (globals s) in
  cached <> NULL ->
  fst (respond (ibus_bus_is_connected cached)
         (world (snd (daemon_ibus_init_once s)))) <> FALSE ->
  ibus_dikt_daemon_get_bus s =
    bind daemon_ibus_init_once
      (fun _ => bind (call (ibus_bus_is_connected cached))
                  (fun _ => ret cached)) s.
Proof.
  cbv zeta. intros Hc Hconn.
  unfold ibus_dikt_daemon_get_bus.
  apply bind_cong. intros u s0 Eonce.
  rewrite Eonce in Hconn. cbn [snd] in Hconn.
  rewrite <- (daemon_ibus_init_once_cache s), Eonce in *. cbn [snd] in *.
  unfold bind, gets, call, ret. rewrite (is_null_neq Hc).
  destruct (respond (ibus_bus_is_connected (daemon_cached_bus (globals s0)))
              (world s0)) as [c w1].
  cbn [fst] in Hconn. cbn. rewrite (c_true_neq Hconn). reflexivity.
Qed.

Lemma ibus_dikt_daemon_get_bus_hit_trace (s : State W) :
  daemon_cached_bus (globals s) <> NULL ->
  fst (respond (ibus_bus_is_connected (daemon_cached_bus (globals s)))
         (world (snd (daemon_ibus_init_once s)))) <> FALSE ->
  exists connected,
    trace (snd (ibus_dikt_daemon_get_bus s)) =
      trace s ++ latch_events (globals s)
        ++ [ Ev (ibus_bus_is_connected (daemon_cached_bus (globals s)))
                connected ].
Proof.
  intros Hc Hconn. rewrite (ibus_dikt_daemon_get_bus_hit s Hc Hconn).
  unfold bind, call, ret.
  pose proof (daemon_ibus_init_once_trace s) as Hl.
  destruct (daemon_ibus_init_once s) as [u s0]. cbn [snd] in *.
  destruct (respond _ (world s0)) as [c w1]. cbn.
  exists c. rewrite Hl, <- app_assoc. reflexivity.
Qed.

(** Reading the global engine's name off a bus: the statics are not written,
    no bus is created, and the descriptor obtained, if any, is given back. *)
Lemma read_global_engine_name_run (bus : ptr) (s : State W) :
  exists evs,
    trace (snd (read_global_engine_name bus s)) = trace s ++ evs /\
    globals (snd (read_global_engine_name bus s)) = globals s /\
    count is_bus_new evs = 0 /\
    outstanding evs = 0%Z.
Proof.
  unfold read_global_engine_name, bind, call, ret.
  destruct s as [g w t]. cbn.
  answer. branch.
  - subst. eexists; repeat split.
  - answer.
    match goal with
    | |- context [match ?n with Some _ => _ | None => _ end] => destruct n
    end; cbn; repeat answer; flat;
      (eexists; split; [reflexivity|]); repeat split;
      unfold outstanding, count; cbn;
      match goal with
      | H : ?p <> NULL |- _ => rewrite (is_null_neq H)
      end; reflexivity.
Qed.

(** One access changes the number of references held by exactly the change
    of the cache between empty and full. *)
Lemma ibus_dikt_daemon_get_bus_balance (s : State W) :
  exists evs,
    trace (snd (ibus_dikt_daemon_get_bus s)) = trace s ++ evs /\
    outstanding evs =
      (held (globals (snd (ibus_dikt_daemon_get_bus s))) - held (globals s))%Z.
Proof.
  destruct (ibus_dikt_daemon_get_bus_run s) as (evs & Ht & Hrun).
  exists (latch_events (globals s) ++ evs). split; [exact Ht|].
  rewrite outstanding_app.
  assert (Hl : outstanding (latch_events (globals s)) = 0%Z).
  { unfold latch_events.
    destruct (daemon_ibus_initialized (globals s) =? 0)%N; reflexivity. }
  rewrite Hl. unfold held.
  remember (daemon_cached_bus (globals (snd (ibus_dikt_daemon_get_bus s))))
    as c' eqn:Ec'.
  remember (fst (ibus_dikt_daemon_get_bus s)) as r eqn:Er.
  destruct Hrun; rewrite ?outstanding_app; unfold stale_release;
    destruct (is_null (daemon_cached_bus (globals s))) eqn:E0;
    unfold outstanding, count; cbn;
    repeat match goal with
      | H : ?p <> NULL |- _ => rewrite (is_null_neq H); clear H
      end; cbn; try reflexivity; try congruence.
Qed.

Lemma read_global_engine_name_shape (bus : ptr) (s : State W) :
  exists evs,
    trace (snd (read_global_engine_name bus s)) = trace s ++ evs /\
    globals (snd (read_global_engine_name bus s)) = globals s /\
    read_run bus (fst (read_global_engine_name bus s)) evs.
Proof.
  unfold read_global_engine_name, bind, call, ret.
  destruct s as [g w t]. cbn.
  answer. branch.
  - subst. eexists. split; [reflexivity|]. split; [reflexivity|].
    constructor.
  - answer.
    match goal with
    | |- context [match ?n with Some _ => _ | None => _ end] => destruct n
    end; cbn; repeat answer; flat;
      (eexists; split; [reflexivity|]); (split; [reflexivity|]);
      constructor; assumption.
Qed.

(** A daemon-side operation either rejects its argument before anything
    else, or goes through the accessor once and then only talks to the bus
    it was given: no bus is created after the accessor returns, the statics
    stay as the accessor left them, and nothing is left held. *)
Lemma run_daemon_op_run (op : cs_op) (s : State W) :
  run_daemon_op op s = (SetResult FALSE, s) \/
  exists evs,
    trace (snd (run_daemon_op op s)) =
      trace (snd (ibus_dikt_daemon_get_bus s)) ++ evs /\
    globals (snd (run_daemon_op op s)) =
      globals (snd (ibus_dikt_daemon_get_bus s)) /\
    count is_bus_new evs = 0 /\
    outstanding evs = 0%Z /\
    (fst (ibus_dikt_daemon_get_bus s) = NULL ->
     refused (fst (run_daemon_op op s)) = true).
Proof.
  destruct op as [[n|]|].
  - unfold run_daemon_op, ibus_dikt_daemon_set_global_engine.
    destruct (strlen n =? 0)%N; [left; reflexivity | right].
    unfold bind. destruct (ibus_dikt_daemon_get_bus s) as [bus s1]. cbn.
    destruct (is_null bus) eqn:E; cbn.
    + exists []. rewrite app_nil_r. repeat split.
    + apply is_null_false in E. unfold call.
      destruct (respond (ibus_bus_set_global_engine bus n) (world s1))
        as [r w1]. cbn.
      eexists; repeat split. contradiction.
  - left. reflexivity.
  - right. unfold run_daemon_op, ibus_dikt_daemon_get_global_engine_name, bind.
    destruct (ibus_dikt_daemon_get_bus s) as [bus s1]. cbn.
    destruct (is_null bus) eqn:E; cbn.
    + exists []. rewrite app_nil_r. repeat split.
    + apply is_null_false in E.
      destruct (read_global_engine_name_run bus s1) as (evs & Ht & Hg & Hn & Ho).
      destruct (read_global_engine_name bus s1) as [r s2]. cbn in *.
      exists evs. repeat split; try assumption. contradiction.
Qed.

Lemma run_daemon_op_balance (op : cs_op) (s : State W) :
  exists evs,
    trace (snd (run_daemon_op op s)) = trace s ++ evs /\
    outstanding evs =
      (held (globals (snd (run_daemon_op op s))) - held (globals s))%Z.
Proof.
  destruct (run_daemon_op_run op s) as [E | (evs2 & Ht2 & Hg2 & _ & Ho2 & _)].
  - rewrite E. exists []. cbn. rewrite app_nil_r. split; [reflexivity|].
    unfold outstanding, count. cbn. lia.
  - destruct (ibus_dikt_daemon_get_bus_balance s) as (evs1 & Ht1 & Ho1).
    exists (evs1 ++ evs2). split.
    + rewrite Ht2, Ht1, app_assoc. reflexivity.
    + rewrite outstanding_app, Ho1, Ho2, Hg2. lia.
Qed.

(** The invariant of the cache over any sequence of daemon-side calls. *)
Lemma run_daemon_ops_balance (ops : list cs_op) (s : State W) :
  exists evs,
    trace (snd (run_daemon_ops ops s)) = trace s ++ evs /\
    outstanding evs =
      (held (globals (snd (run_daemon_ops ops s))) - held (globals s))%Z.
Proof.
  revert s. induction ops as [|op ops IH]; intro s.
  - exists []. cbn. rewrite app_nil_r. split; [reflexivity|].
    unfold outstanding, count. cbn. lia.
  - destruct (run_daemon_op_balance op s) as (evs1 & Ht1 & Ho1).
    cbn [run_daemon_ops]. unfold bind.
    destruct (run_daemon_op op s) as [r s1]. cbn [snd] in *.
    destruct (IH s1) as (evs2 & Ht2 & Ho2).
    destruct (run_daemon_ops ops s1) as [rs s2].
    cbn [fst snd ret] in *.
    exists (evs1 ++ evs2). split.
    + rewrite Ht2, Ht1, app_assoc. reflexivity.
    + rewrite outstanding_app, Ho1, Ho2. lia.
Qed.

Lemma count_latch_events (g : Globals) : count is_bus_new (latch_events g) = 0.
Proof.
  unfold latch_events. destruct (daemon_ibus_initialized g =? 0)%N; reflexivity.
Qed.

Lemma added_same (s : State W) : added s s = [].
Proof. unfold added. apply skipn_all. Qed.

Lemma added_trans (s s1 s2 : State W) (e1 e2 : list event) :
  trace s1 = trace s ++ e1 ->
  trace s2 = trace s1 ++ e2 ->
  added s s2 = added s s1 ++ added s1 s2.
Proof.
  intros H1 H2.
  rewrite (added_app _ _ _ H1), (added_app _ _ _ H2).
  apply added_app. rewrite H2, H1, app_assoc. reflexivity.
Qed.

(** What an access does to the latch. *)
Lemma ibus_dikt_daemon_get_bus_latch (s : State W) :
  daemon_ibus_initialized (globals (snd (ibus_dikt_daemon_get_bus s))) =
    (if (daemon_ibus_initialized (globals s) =? 0)%N then 1%N
     else daemon_ibus_initialized (globals s)).
Proof.
  unfold ibus_dikt_daemon_get_bus, daemon_ibus_init_once, g_once_init_enter,
    g_once_init_leave, bind, gets, modify, call, ret.
  destruct s as [g w t]. destruct g. cbn.
  destruct (daemon_ibus_initialized0 =? 0)%N; cbn;
    repeat first [answer | branch]; reflexivity.
Qed.

(** A rejected argument: nothing happens. *)
Lemma run_daemon_op_rejected (op : cs_op) (s : State W) :
  rejects op = true -> run_daemon_op op s = (SetResult FALSE, s).
Proof.
  destruct op as [[n|]|]; cbn; intro H; try discriminate; [|reflexivity].
  unfold run_daemon_op, ibus_dikt_daemon_set_global_engine. rewrite H.
  reflexivity.
Qed.

(** An accepted argument: the accessor is called, and the operation then
    works on the handle it returned. *)
Lemma run_daemon_op_access (op : cs_op) (s : State W) :
  rejects op = false ->
  exists tail,
    trace (snd (run_daemon_op op s)) =
      trace (snd (ibus_dikt_daemon_get_bus s)) ++ tail /\
    globals (snd (run_daemon_op op s)) =
      globals (snd (ibus_dikt_daemon_get_bus s)) /\
    daemon_tail (fst (ibus_dikt_daemon_get_bus s)) op
      (fst (run_daemon_op op s)) tail.
Proof.
  destruct op as [[n|]|]; cbn; intro H; try discriminate.
  - unfold run_daemon_op, ibus_dikt_daemon_set_global_engine. rewrite H.
    unfold bind. destruct (ibus_dikt_daemon_get_bus s) as [bus s1]. cbn.
    destruct (is_null bus) eqn:E; cbn.
    + exists []. rewrite app_nil_r. repeat split.
      constructor. now apply is_null_true.
    + unfold call.
      destruct (respond (ibus_bus_set_global_engine bus n) (world s1))
        as [r w1]. cbn.
      eexists. split; [reflexivity|]. split; [reflexivity|].
      constructor. now apply is_null_false.
  - unfold run_daemon_op, ibus_dikt_daemon_get_global_engine_name, bind.
    destruct (ibus_dikt_daemon_get_bus s) as [bus s1]. cbn.
    destruct (is_null bus) eqn:E; cbn.
    + exists []. rewrite app_nil_r. repeat split.
      constructor. now apply is_null_true.
    + destruct (read_global_engine_name_shape bus s1) as (evs & Ht & Hg & Hr).
      destruct (read_global_engine_name bus s1) as [r s2]. cbn in *.
      exists evs. repeat split; try assumption.
      constructor; [now apply is_null_false | assumption].
Qed.

Lemma run_daemon_op_step (op : cs_op) (s : State W) :
  daemon_step (daemon_statics (globals s)) op (fst (run_daemon_op op s))
    (daemon_statics (globals (snd (run_daemon_op op s))))
    (added s (snd (run_daemon_op op s))).
Proof.
  destruct (rejects op) eqn:R.
  - rewrite (run_daemon_op_rejected op s R). cbn [fst snd].
    rewrite added_same. now constructor.
  - destruct (run_daemon_op_access op s R) as (tail & Ht & Hg & Htail).
    destruct (ibus_dikt_daemon_get_bus_run s) as (evs & Ht1 & Hrun).
    pose proof (ibus_dikt_daemon_get_bus_latch s) as Hl.
    rewrite Ht1, <- !app_assoc in Ht.
    rewrite (added_app _ _ _ Ht). unfold daemon_statics. rewrite Hg, Hl.
    exact (@step_access (daemon_statics (globals s)) op _ _ _ _ _ R Hrun Htail).
Qed.

Lemma run_daemon_ops_history (ops : list cs_op) (s : State W) :
  daemon_history (daemon_statics (globals s)) ops
    (fst (run_daemon_ops ops s))
    (daemon_statics (globals (snd (run_daemon_ops ops s))))
    (added s (snd (run_daemon_ops ops s))).
Proof.
  revert s. induction ops as [|op ops IH]; intro s.
  - cbn. rewrite added_same. constructor.
  - cbn [run_daemon_ops]. unfold bind.
    pose proof (run_daemon_op_step op s) as Hstep.
    destruct (run_daemon_op_balance op s) as (e1 & Ht1 & _).
    destruct (run_daemon_op op s) as [r s1]. cbn [fst snd] in *.
    pose proof (IH s1) as Hrest.
    destruct (run_daemon_ops_balance ops s1) as (e2 & Ht2 & _).
    destruct (run_daemon_ops ops s1) as [rs s2]. cbn [fst snd ret] in *.
    rewrite (added_trans s s1 s2 e1 e2 Ht1 Ht2).
    econstructor; eassumption.
Qed.

(** A cache hit, with the answer named. *)
Lemma ibus_dikt_daemon_get_bus_hit_run (s : State W) :
  daemon_cached_bus (globals s) <> NULL ->
  fst (respond (ibus_bus_is_connected (daemon_cached_bus (globals s)))
         (world (snd (daemon_ibus_init_once s)))) <> FALSE ->
  fst (ibus_dikt_daemon_get_bus s) = daemon_cached_bus (globals s) /\
  trace (snd (ibus_dikt_daemon_get_bus s)) =
    trace s ++ latch_events (globals s)
      ++ [ Ev (ibus_bus_is_connected (daemon_cached_bus (globals s)))
              (fst (respond
                      (ibus_bus_is_connected (daemon_cached_bus (globals s)))
                      (world (snd (daemon_ibus_init_once s))))) ].
Proof.
  intros Hc Hconn. rewrite (ibus_dikt_daemon_get_bus_hit s Hc Hconn).
  unfold bind, call, ret.
  pose proof (daemon_ibus_init_once_trace s) as Hl.
  destruct (daemon_ibus_init_once s) as [u s0]. cbn [snd] in *.
  destruct (respond _ (world s0)) as [c w1]. cbn.
  split; [reflexivity|]. rewrite Hl, <- app_assoc. reflexivity.
Qed.

(** A stale handle: it is queried, given back, and a new bus is asked
    for. *)
Lemma ibus_dikt_daemon_get_bus_stale (s : State W) :
  daemon_cached_bus (globals s) <> NULL ->
  fst (respond (ibus_bus_is_connected (daemon_cached_bus (globals s)))
         (world (snd (daemon_ibus_init_once s)))) = FALSE ->
  exists fresh rest,
    trace (snd (ibus_dikt_daemon_get_bus s)) =
      trace s ++ latch_events (globals s)
        ++ Ev (ibus_bus_is_connected (daemon_cached_bus (globals s))) FALSE
        :: Ev (g_object_unref (daemon_cached_bus (globals s))) tt
        :: Ev ibus_bus_new fresh :: rest.
Proof.
  intros Hc Hconn. unfold ibus_dikt_daemon_get_bus. unfold bind at 1.
  pose proof (daemon_ibus_init_once_trace s) as Hl.
  pose proof (daemon_ibus_init_once_cache s) as Hk.
  destruct (daemon_ibus_init_once s) as [u s0]. cbn [snd] in *.
  destruct s0 as [g0 w0 t0]. cbn [globals world trace] in *.
  unfold bind, gets, modify, call, ret. cbn [globals world trace].
  rewrite Hk, (is_null_neq Hc). cbn.
  destruct (respond (ibus_bus_is_connected (daemon_cached_bus (globals s))) w0)
    as [c w1]. cbn [fst] in Hconn. subst c. cbn.
  rewrite ?(is_null_neq Hc). cbn.
  subst t0.
  repeat first [answer | branch]; subst; cbn;
    flat; do 2 eexists; reflexivity.
Qed.

(** An empty cache: a new bus is asked for at once. *)
Lemma ibus_dikt_daemon_get_bus_empty (s : State W) :
  daemon_cached_bus (globals s) = NULL ->
  exists fresh rest,
    trace (snd (ibus_dikt_daemon_get_bus s)) =
      trace s ++ latch_events (globals s) ++ Ev ibus_bus_new fresh :: rest.
Proof.
  intro Hnull.
  destruct (ibus_dikt_daemon_get_bus_run s) as (evs & Ht & Hrun).
  rewrite Ht.
  remember (fst (ibus_dikt_daemon_get_bus s)) as r eqn:Er.
  remember (daemon_cached_bus (globals (snd (ibus_dikt_daemon_get_bus s))))
    as c' eqn:Ec.
  destruct Hrun; [contradiction | | |]; rewrite Hnull; cbn;
    do 2 eexists; reflexivity.
Qed.

(** C4. The daemon bus cache.
    (1) Every access is, after the one-shot latch, one of four runs: a hit,
    which queries the cached handle, finds it connected and returns it with
    the cache untouched; or, with the cache empty or the cached handle found
    disconnected and first given back, a new bus that is null (cache left
    null, null returned), a new bus that is not connected (given back, cache
    left null, null returned), or a new connected bus (cached and returned).
    (2) Reuse: when the cache is not empty and the cached handle answers
    "connected", a daemon-side get or set creates no bus, the accessor
    returns the cached handle and the cache keeps it.
    (3) When the accessor returns null the operation answers none / FALSE.
    (4) Retry: with the cache empty, the next access asks for a new bus,
    once.
    (5) At most one handle: over any sequence of daemon-side calls, started
    where the references held are exactly the cached bus (if any), the
    references held at the end are again exactly the cached bus (if any).
    (6) Every daemon-side get or set is a [daemon_step]: a rejected argument
    does nothing; any other goes through the latch and one access of the
    cache, of one of the four runs of (1), and then works on exactly the
    handle that access returned: nothing and none / FALSE when it is null,
    the switch request or the read of the global engine on that handle
    otherwise. The cached bus after the operation is the one the access
    left.
    (7) Every sequence of daemon-side calls is a chain of such steps, each
    starting with the latch and the cached bus the one before left: so a
    handle put in the cache by one call is the handle the next call
    queries, and it is the only one.
    (8) Reuse by the operation: with a cached handle that answers
    "connected" and an accepted argument, the calls are the latch, the
    query of the cached handle, and the operation on the cached handle.
    (9) Release and refresh by the operation: with a cached handle that
    answers "not connected" and an accepted argument, the calls start, after
    the latch, with the query of the cached handle, its release, and
    [ibus_bus_new].
    (10) Retry by the operation: with the cache empty and an accepted
    argument, the first call after the latch is [ibus_bus_new]. *)
Theorem daemon_bus_cache_contract :
  (forall s : State W,
      exists evs,
        added s (snd (ibus_dikt_daemon_get_bus s)) =
          latch_events (globals s) ++ evs /\
        cache_run (daemon_cached_bus (globals s))
          (fst (ibus_dikt_daemon_get_bus s))
          (daemon_cached_bus (globals (snd (ibus_dikt_daemon_get_bus s))))
          evs) /\
  (forall (op : cs_op) (s : State W),
      daemon_cached_bus (globals s) <> NULL ->
      fst (respond (ibus_bus_is_connected (daemon_cached_bus (globals s)))
             (world (snd (daemon_ibus_init_once s)))) <> FALSE ->
      fst (ibus_dikt_daemon_get_bus s) = daemon_cached_bus (globals s) /\
      daemon_cached_bus (globals (snd (run_daemon_op op s))) =
        daemon_cached_bus (globals s) /\
      count is_bus_new (added s (snd (run_daemon_op op s))) = 0) /\
  (forall (op : cs_op) (s : State W),
      fst (ibus_dikt_daemon_get_bus s) = NULL ->
      refused (fst (run_daemon_op op s)) = true) /\
  (forall s : State W,
      daemon_cached_bus (globals s) = NULL ->
      count is_bus_new (added s (snd (ibus_dikt_daemon_get_bus s))) = 1) /\
  (forall (ops : list cs_op) (s : State W),
      outstanding (trace s) = held (globals s) ->
      outstanding (trace (snd (run_daemon_ops ops s))) =
        held (globals (snd (run_daemon_ops ops s)))) /\
  (forall (op : cs_op) (s : State W),
      daemon_step (daemon_statics (globals s)) op (fst (run_daemon_op op s))
        (daemon_statics (globals (snd (run_daemon_op op s))))
        (added s (snd (run_daemon_op op s)))) /\
  (forall (ops : list cs_op) (s : State W),
      daemon_history (daemon_statics (globals s)) ops
        (fst (run_daemon_ops ops s))
        (daemon_statics (globals (snd (run_daemon_ops ops s))))
        (added s (snd (run_daemon_ops ops s)))) /\
  (forall (op : cs_op) (s : State W),
      rejects op = false ->
      daemon_cached_bus (globals s) <> NULL ->
      fst (respond (ibus_bus_is_connected (daemon_cached_bus (globals s)))
             (world (snd (daemon_ibus_init_once s)))) <> FALSE ->
      exists tail,
        added s (snd (run_daemon_op op s)) =
          latch_events (globals s)
            ++ Ev (ibus_bus_is_connected (daemon_cached_bus (globals s)))
                 (fst (respond
                         (ibus_bus_is_connected
                            (daemon_cached_bus (globals s)))
                         (world (snd (daemon_ibus_init_once s)))))
            :: tail /\
        daemon_tail (daemon_cached_bus (globals s)) op
          (fst (run_daemon_op op s)) tail) /\
  (forall (op : cs_op) (s : State W),
      rejects op = false ->
      daemon_cached_bus (globals s) <> NULL ->
      fst (respond (ibus_bus_is_connected (daemon_cached_bus (globals s)))
             (world (snd (daemon_ibus_init_once s)))) = FALSE ->
      exists fresh rest,
        added s (snd (run_daemon_op op s)) =
          latch_events (globals s)
            ++ Ev (ibus_bus_is_connected (daemon_cached_bus (globals s)))
                 FALSE
            :: Ev (g_object_unref (daemon_cached_bus (globals s))) tt
            :: Ev ibus_bus_new fresh :: rest) /\
  (forall (op : cs_op) (s : State W),
      rejects op = false ->
      daemon_cached_bus (globals s) = NULL ->
      exists fresh rest,
        added s (snd (run_daemon_op op s)) =
          latch_events (globals s) ++ Ev ibus_bus_new fresh :: rest).
Proof.
  split; [|split; [|split; [|split; [|split; [|split; [|split; [|split;
    [|split]]]]]]]].
  - intro s.
    destruct (ibus_dikt_daemon_get_bus_run s) as (evs & Ht & Hrun).
    exists evs. split; [|exact Hrun]. apply added_app. exact Ht.
  - intros op s H H0. split; [|split].
    + rewrite (ibus_dikt_daemon_get_bus_hit s H H0).
      unfold bind, call, ret.
      destruct (daemon_ibus_init_once s) as [u s0].
      destruct (respond _ (world s0)) as [c w1]. reflexivity.
    + destruct (run_daemon_op_run op s) as [E | (evs & _ & Hg & _)].
      * rewrite E. reflexivity.
      * rewrite Hg, (ibus_dikt_daemon_get_bus_hit s H H0).
        unfold bind, call, ret.
        pose proof (daemon_ibus_init_once_cache s) as Hc.
        destruct (daemon_ibus_init_once s) as [u s0].
        destruct (respond _ (world s0)) as [c w1]. exact Hc.
    + destruct (run_daemon_op_run op s) as [E | (evs & Ht & _ & Hn & _)].
      * rewrite E. unfold added. cbn. rewrite skipn_all. reflexivity.
      * destruct (ibus_dikt_daemon_get_bus_hit_trace s H H0) as (c & Ht1).
        rewrite Ht1, <- !app_assoc in Ht.
        rewrite (added_app _ _ _ Ht), !count_app, count_latch_events, Hn.
        reflexivity.
  - intros op s Hnull.
    destruct (run_daemon_op_run op s) as [E | (evs & _ & _ & _ & _ & Href)].
    + rewrite E. reflexivity.
    + exact (Href Hnull).
  - intros s Hnull.
    destruct (ibus_dikt_daemon_get_bus_run s) as (evs & Ht & Hrun).
    rewrite (added_app _ _ _ Ht), count_app, count_latch_events.
    remember (fst (ibus_dikt_daemon_get_bus s)) as r eqn:Er.
    remember (daemon_cached_bus (globals (snd (ibus_dikt_daemon_get_bus s))))
      as c' eqn:Ec.
    destruct Hrun; [contradiction | | |];
      rewrite Hnull; reflexivity.
  - intros ops s Hinv.
    destruct (run_daemon_ops_balance ops s) as (evs & Ht & Ho).
    rewrite Ht, outstanding_app, Hinv, Ho. lia.
  - exact run_daemon_op_step.
  - exact run_daemon_ops_history.
  - intros op s R Hc Hconn.
    destruct (run_daemon_op_access op s R) as (tail & Ht & _ & Htail).
    destruct (ibus_dikt_daemon_get_bus_hit_run s Hc Hconn) as (Hbus & Ht1).
    rewrite Hbus in Htail. exists tail. split; [|exact Htail].
    apply added_app. rewrite Ht, Ht1, <- !app_assoc. reflexivity.
  - intros op s R Hc Hconn.
    destruct (run_daemon_op_access op s R) as (tail & Ht & _ & _).
    destruct (ibus_dikt_daemon_get_bus_stale s Hc Hconn) as (fresh & rest & Ht1).
    exists fresh, (rest ++ tail).
    apply added_app. rewrite Ht, Ht1, <- !app_assoc. reflexivity.
  - intros op s R Hnull.
    destruct (run_daemon_op_access op s R) as (tail & Ht & _ & _).
    destruct (ibus_dikt_daemon_get_bus_empty s Hnull) as (fresh & rest & Ht1).
    exists fresh, (rest ++ tail).
    apply added_app. rewrite Ht, Ht1, <- !app_assoc. reflexivity.
Qed.

End DaemonCache.

(** * Concrete runs on the mock framework *)

(** Settle a conjunction of closed equations by evaluation. *)
Ltac evaluate :=
  cbv zeta;
  repeat match goal with |- _ /\ _ => split end;
  vm_compute; reflexivity.

(** C3. The claim fails on the code for the empty name. After a successful
    init on a connected bus, [ibus_dikt_set_global_engine] with the empty
    string queries the connection and sends the switch request to the bus,
    and returns the bus's answer (TRUE on this mock); only the null name is
    refused up front. The daemon-side sibling, on the same argument and
    state, answers FALSE without a call. *)
Theorem set_global_engine_empty_name_reaches_bus :
  let r := ibus_dikt_set_global_engine (Some EmptyString) running in
  global_bus (globals running) = 16%N /\
  fst r = TRUE /\
  added running (snd r) =
    [ Ev (ibus_bus_is_connected 16%N) TRUE;
      Ev (ibus_bus_set_global_engine 16%N EmptyString) TRUE ] /\
  ibus_dikt_set_global_engine None running = (FALSE, running) /\
  ibus_dikt_daemon_set_global_engine (Some EmptyString) running =
    (FALSE, running).
Proof. evaluate. Qed.

(** Even a bus that refuses the empty name is asked. *)
Example set_global_engine_empty_name_refused_by_bus :
  let s := mkState (globals running)
             (mkMock 19 true (Some 0%N) true true 1%N FALSE None [] [] [] [] [])
             [] in
  ibus_dikt_set_global_engine (Some EmptyString) s =
    (FALSE,
     mkState (globals running)
       (mkMock 19 true (Some 0%N) true true 1%N FALSE None [] [] [] [] [])
       [ Ev (ibus_bus_is_connected 16%N) TRUE;
         Ev (ibus_bus_set_global_engine 16%N EmptyString) FALSE ]).
Proof. evaluate. Qed.

(** Spec scenario 1: IBus-managed init, then reading the global engine. *)
Example scenario_managed_init :
  fst (ibus_dikt_init true (start mock_up)) = 0%Z /\
  fst (ibus_dikt_get_global_engine_name running) = Some "xkb:us::eng"%string.
Proof. evaluate. Qed.

(** Spec scenario 2: what the mock has registered after a self-registered
    init. *)
Example scenario_self_registered :
  registered (world (snd (ibus_dikt_init false (start mock_up)))) =
    [ mkComponent "org.freedesktop.IBus.Dikt" "Dikt Speech-to-Text" "unknown"
        "MIT" "Dikt Team" "https://github.com/rohithmahesh3/Dikt" EmptyString
        "dikt-ibus"
        [ mkEngineDesc "dikt" "Dikt" "Dikt speech-to-text dictation" "other"
            "MIT" "Dikt Team" "dikt" "default" ] ].
Proof. evaluate. Qed.

(** The same in a build with [-DDIKT_VERSION="0.4.1"]: the version field
    follows the build. *)
Example scenario_self_registered_versioned :
  map co_version
    (registered
       (world (snd (ibus_dikt_init (bld := mkBuild "0.4.1") false
                      (start mock_up))))) = [ "0.4.1"%string ].
Proof. evaluate. Qed.

(** Spec scenario 4: the host consumes the space key only. *)
Example scenario_key_forwarding :
  fst (fire (ibus_dikt_engine_class_init parent_class) 7 (KeyEvent 32 57 0)
         installed) = Some TRUE /\
  fst (fire (ibus_dikt_engine_class_init parent_class) 7 (KeyEvent 65 38 0)
         installed) = Some FALSE.
Proof. evaluate. Qed.

(** Spec scenario 3: the daemon's cached handle drops between two switches;
    the second call gives the dead handle back, opens a new one and
    succeeds on it. *)
Example scenario_daemon_reconnect :
  let r := ibus_dikt_daemon_set_global_engine (Some "dikt"%string) daemon_cut in
  fst r = TRUE /\
  daemon_cached_bus (globals (snd r)) = 17%N /\
  added daemon_cut (snd r) =
    [ Ev (ibus_bus_is_connected 16%N) FALSE;
      Ev (g_object_unref 16%N) tt;
      Ev ibus_bus_new 17%N;
      Ev (ibus_bus_is_connected 17%N) TRUE;
      Ev (ibus_bus_set_global_engine 17%N "dikt") TRUE ].
Proof. evaluate. Qed.

(** With the daemon gone the cache is emptied, the call is refused, and the
    next call tries a new bus again. *)
Example scenario_daemon_lost :
  let r := ibus_dikt_daemon_get_global_engine_name daemon_lost in
  fst r = None /\
  daemon_cached_bus (globals (snd r)) = NULL /\
  added daemon_lost (snd r) =
    [ Ev (ibus_bus_is_connected 16%N) FALSE;
      Ev (g_object_unref 16%N) tt;
      Ev ibus_bus_new 17%N;
      Ev (ibus_bus_is_connected 17%N) FALSE;
      Ev (g_object_unref 17%N) tt ] /\
  added (snd r) (snd (ibus_dikt_daemon_get_global_engine_name (snd r))) =
    [ Ev ibus_bus_new 18%N;
      Ev (ibus_bus_is_connected 18%N) FALSE;
      Ev (g_object_unref 18%N) tt ].
Proof. evaluate. Qed.

(** Spec scenario 5: no callback installed, every event is a no-op. *)
Example scenario_no_callback :
  forall ev : engine_event,
    fire (ibus_dikt_engine_class_init parent_class) 7 ev running =
      (not_handled ev, running).
Proof. intros []; reflexivity. Qed.

(** Spec scenario 6: two cleanups after a successful init. *)
Example scenario_cleanup_twice :
  added running (snd (ibus_dikt_cleanup running)) =
    [ Ev (g_object_unref 18%N) tt; Ev (g_object_unref 16%N) tt ] /\
  ibus_dikt_cleanup (snd (ibus_dikt_cleanup running)) =
    (tt, snd (ibus_dikt_cleanup running)).
Proof. evaluate. Qed.

(** An unexpected answer to the name request: a warning, and still 0. *)
Example scenario_name_anomaly :
  let w := mkMock 16 true (Some 0%N) true true 3%N TRUE None [] [] [] [] [] in
  fst (ibus_dikt_init true (start w)) = 0%Z /\
  stderr (world (snd (ibus_dikt_init true (start w)))) =
    [ ("Warning: Failed to acquire IBus name: 3" ++ LF)%string ].
Proof. evaluate. Qed.

(** Witness of C2: a key event on the installed table is forwarded, and a
    key event on the empty table is not consumed. *)
Lemma engine_dispatch_witness :
  fire (ibus_dikt_engine_class_init parent_class) 7 (KeyEvent 32 57 0)
    installed = forward (KeyEvent 32 57 0) 4097 4096 7 installed /\
  fire (ibus_dikt_engine_class_init parent_class) 7 (KeyEvent 0 0 0)
    (start mock_up) = (Some FALSE, start mock_up).
Proof.
  split.
  - apply (proj1 (engine_dispatch parent_class 7 (KeyEvent 32 57 0) installed)).
    split; discriminate.
  - apply (proj2 (engine_dispatch parent_class 7 (KeyEvent 0 0 0)
                    (start mock_up))).
    left. reflexivity.
Defined.

(** Witness of C4: on a warm cache with the daemon up the handle at 16 is
    reused, by the accessor and by the read that goes through it; on an
    empty cache one bus is asked for; with the daemon gone the operation is
    refused; a dropped connection makes the next switch give the handle at
    16 back and ask for a new bus; and after a dropped connection, a read, a
    rejected switch and a switch, the one reference held is the cached
    bus. *)
Lemma daemon_bus_cache_witness :
  daemon_cached_bus (globals daemon_warm) = 16%N /\
  (fst (ibus_dikt_daemon_get_bus daemon_warm) = 16%N /\
   daemon_cached_bus
     (globals (snd (run_daemon_op GetGlobalEngineName daemon_warm))) = 16%N /\
   count is_bus_new
     (added daemon_warm (snd (run_daemon_op GetGlobalEngineName daemon_warm)))
     = 0) /\
  count is_bus_new
    (added (start mock_up) (snd (ibus_dikt_daemon_get_bus (start mock_up))))
    = 1 /\
  refused (fst (run_daemon_op GetGlobalEngineName (start mock_down))) = true /\
  outstanding
    (trace (snd (run_daemon_ops
                   [ GetGlobalEngineName; SetGlobalEngine None;
                     SetGlobalEngine (Some "dikt"%string) ] daemon_cut))) =
    held (globals (snd (run_daemon_ops
                          [ GetGlobalEngineName; SetGlobalEngine None;
                            SetGlobalEngine (Some "dikt"%string) ]
                          daemon_cut))) /\
  (exists tail,
      added daemon_warm (snd (run_daemon_op GetGlobalEngineName daemon_warm)) =
        latch_events (globals daemon_warm)
          ++ Ev (ibus_bus_is_connected (daemon_cached_bus (globals daemon_warm)))
               (fst (respond
                       (ibus_bus_is_connected
                          (daemon_cached_bus (globals daemon_warm)))
                       (world (snd (daemon_ibus_init_once daemon_warm)))))
          :: tail /\
      daemon_tail (daemon_cached_bus (globals daemon_warm)) GetGlobalEngineName
        (fst (run_daemon_op GetGlobalEngineName daemon_warm)) tail) /\
  (exists fresh rest,
      added daemon_cut
        (snd (run_daemon_op (SetGlobalEngine (Some "dikt"%string)) daemon_cut))
      = latch_events (globals daemon_cut)
          ++ Ev (ibus_bus_is_connected (daemon_cached_bus (globals daemon_cut)))
               FALSE
          :: Ev (g_object_unref (daemon_cached_bus (globals daemon_cut))) tt
          :: Ev ibus_bus_new fresh :: rest) /\
  (exists fresh rest,
      added (start mock_up)
        (snd (run_daemon_op GetGlobalEngineName (start mock_up)))
      = latch_events (globals (start mock_up))
          ++ Ev ibus_bus_new fresh :: rest).
Proof.
  pose proof (@daemon_bus_cache_contract Mock mock_framework)
    as (_ & Hreuse & Hfail & Hretry & Hheld & _ & _ & Hreuse_op & Hstale_op
        & Hretry_op).
  split; [reflexivity|].
  split; [|split; [|split; [|split; [|split; [|split]]]]].
  - apply (Hreuse GetGlobalEngineName daemon_warm); discriminate.
  - apply (Hretry (start mock_up)). reflexivity.
  - apply (Hfail GetGlobalEngineName (start mock_down)). reflexivity.
  - apply (Hheld _ daemon_cut). reflexivity.
  - apply (Hreuse_op GetGlobalEngineName daemon_warm);
      [reflexivity | discriminate | discriminate].
  - apply (Hstale_op (SetGlobalEngine (Some "dikt"%string)) daemon_cut);
      [reflexivity | discriminate | reflexivity].
  - apply (Hretry_op GetGlobalEngineName (start mock_up)); reflexivity.
Defined.

(** Witness of C5, in the default build. *)
Lemma self_registered_component_witness :
  fst (ibus_dikt_init false (start mock_up)) = 0%Z /\
  (default_build = default_build ->
   DIKT_VERSION (Build := default_build) = "unknown"%string) /\
  exists bus connected conn factory handler engine_type component desc
         registered_ok,
    global_bus (globals (snd (ibus_dikt_init false (start mock_up)))) = bus /\
    added (start mock_up) (snd (ibus_dikt_init false (start mock_up))) =
      init_prologue bus connected conn factory handler engine_type
        ++ [ Ev (ibus_component_new "org.freedesktop.IBus.Dikt"
                   "Dikt Speech-to-Text" "unknown" "MIT" "Dikt Team"
                   "https://github.com/rohithmahesh3/Dikt" EmptyString
                   "dikt-ibus") component;
             Ev (ibus_engine_desc_new "dikt" "Dikt"
                   "Dikt speech-to-text dictation" "other" "MIT" "Dikt Team"
                   "dikt" "default") desc;
             Ev (ibus_component_add_engine component desc) tt;
             Ev (ibus_bus_register_component bus component) registered_ok;
             Ev (g_object_unref component) tt ].
Proof.
  split; [reflexivity|].
  apply (@self_registered_component Mock mock_framework default_build
           (start mock_up)).
  reflexivity.
Defined.

(** Witness of C7: init succeeds on the running mock and fails on the one
    whose daemon is down. *)
Lemma cleanup_contract_witness :
  fst (ibus_dikt_init true (start mock_up)) = 0%Z /\
  ibus_dikt_cleanup (snd (ibus_dikt_cleanup running)) =
    (tt, snd (ibus_dikt_cleanup running)) /\
  (exists bus conn factory,
      filter is_bus_new (added (start mock_up) running) =
        [ Ev ibus_bus_new bus ] /\
      In (Ev (ibus_factory_new conn) factory) (added (start mock_up) running) /\
      added running (snd (ibus_dikt_cleanup running)) =
        [ Ev (g_object_unref factory) tt; Ev (g_object_unref bus) tt ] /\
      ibus_dikt_cleanup (snd (ibus_dikt_cleanup running)) =
        (tt, snd (ibus_dikt_cleanup running))) /\
  fst (ibus_dikt_init true (start mock_down)) = 2%Z /\
  ibus_dikt_cleanup (snd (ibus_dikt_init true (start mock_down))) =
    (tt, snd (ibus_dikt_init true (start mock_down))).
Proof.
  pose proof (cleanup_contract running true (start mock_up))
    as (_ & Htwice & Hok & _).
  pose proof (cleanup_contract running true (start mock_down))
    as (_ & _ & _ & Hfailed).
  split; [reflexivity|]. split; [exact Htwice|].
  split; [apply Hok; reflexivity|]. split; [reflexivity|].
  apply Hfailed; [discriminate | reflexivity | reflexivity].
Defined.

(** Witness of C8. *)
Lemma cleanup_after_init_witness :
  fst (ibus_dikt_init false (start mock_up)) = 0%Z /\
  forallb refused
    (fst (run_cs_ops
            [ SetGlobalEngine (Some "dikt"%string); GetGlobalEngineName ]
            (snd (ibus_dikt_cleanup
                    (snd (ibus_dikt_init false (start mock_up))))))) = true.
Proof.
  split; [reflexivity|].
  apply (cleanup_after_init_disables_control_surface false (start mock_up)
           [ SetGlobalEngine (Some "dikt"%string); GetGlobalEngineName ]).
  reflexivity.
Defined.

(** Witness of C9. *)
Lemma daemon_set_global_engine_rejects_empty_witness :
  ibus_dikt_daemon_set_global_engine (Some EmptyString) daemon_warm =
    (FALSE, daemon_warm) /\
  ibus_dikt_daemon_set_global_engine None daemon_warm = (FALSE, daemon_warm).
Proof.
  split.
  - apply (@daemon_set_global_engine_rejects_empty Mock mock_framework
             (Some EmptyString) daemon_warm).
    right. reflexivity.
  - apply (@daemon_set_global_engine_rejects_empty Mock mock_framework
             None daemon_warm).
    left. reflexivity.
Defined.

(** Counterexample to C10 as worded. In a process where an earlier init
    succeeded, a second init that fails at the factory step returns 4 and
    the bus and the factory are not null afterwards; the next
    set_global_engine answers TRUE and the next get_global_engine_name
    answers a name. *)
Lemma failed_init_keeps_published_handles :
  fst (ibus_dikt_init true running_factory_lost) = 4%Z /\
  global_bus (globals (snd (ibus_dikt_init true running_factory_lost))) =
    16%N /\
  global_factory (globals (snd (ibus_dikt_init true running_factory_lost))) =
    18%N /\
  fst (ibus_dikt_set_global_engine (Some "dikt"%string)
         (snd (ibus_dikt_init true running_factory_lost))) = TRUE /\
  fst (ibus_dikt_get_global_engine_name
         (snd (ibus_dikt_init true running_factory_lost))) =
    Some "xkb:us::eng"%string.
Proof. evaluate. Qed.

(** Witness of C10: init against a daemon that is not running. *)
Lemma failed_init_witness :
  fst (ibus_dikt_init true (start mock_down)) = 2%Z /\
  globals (snd (ibus_dikt_init true (start mock_down))) = globals0 /\
  filter is_unref (added (start mock_down)
                     (snd (ibus_dikt_init true (start mock_down)))) =
    [ Ev (g_object_unref 16) tt ] /\
  forallb refused
    (fst (run_cs_ops
            [ SetGlobalEngine (Some "dikt"%string); GetGlobalEngineName ]
            (snd (ibus_dikt_init true (start mock_down))))) = true.
Proof.
  pose proof (failed_init_publishes_nothing true (start mock_down)
                [ SetGlobalEngine (Some "dikt"%string); GetGlobalEngineName ])
    as H.
  cbv zeta in H.
  destruct H as (_ & Hg & _ & Hlater); [discriminate|].
  destruct Hlater as (_ & _ & Href & _); [reflexivity | reflexivity |].
  split; [reflexivity|]. split; [exact Hg|]. split; [reflexivity | exact Href].
Defined.

(** * Further properties of wrapper.c *)

Lemma ref_balance_app (l1 l2 : list event) :
  ref_balance (l1 ++ l2) = (ref_balance l1 + ref_balance l2)%Z.
Proof. unfold ref_balance. rewrite !count_app. lia. Qed.

Lemma ref_balance_nil : ref_balance [] = 0%Z.
Proof. reflexivity. Qed.

Section ControlRuns.

Context {W : Type} {fw : Framework W} {bld : Build}.

Lemma read_run_balance (bus : ptr) (r : gchar_p) (evs : list event) :
  read_run bus r evs ->
  ref_balance evs = 0%Z /\ count is_ibus_init evs = 0 /\
  count is_bus_new evs = 0.
Proof.
  intro H. destruct H; unfold ref_balance, count; cbn;
    try match goal with
      | H : ?p <> NULL |- _ => rewrite (is_null_neq H)
      end; repeat split.
Qed.

Lemma ibus_dikt_set_global_engine_run (engine_name : gchar_p) (s : State W) :
  exists evs,
    trace (snd (ibus_dikt_set_global_engine engine_name s)) = trace s ++ evs /\
    globals (snd (ibus_dikt_set_global_engine engine_name s)) = globals s /\
    switch_run (global_bus (globals s)) engine_name
      (fst (ibus_dikt_set_global_engine engine_name s)) evs.
Proof.
  unfold ibus_dikt_set_global_engine, bind, gets, call, ret.
  destruct s as [g w t]. cbn.
  destruct (is_null (global_bus g)) eqn:Eb;
    [apply is_null_true in Eb | apply is_null_false in Eb].
  - exists []. rewrite app_nil_r. repeat split. now constructor.
  - destruct engine_name as [name|].
    + answer. branch.
      * answer. flat. eexists. split; [reflexivity|]. split; [reflexivity|].
        now constructor.
      * subst. eexists. split; [reflexivity|]. split; [reflexivity|].
        now constructor.
    + exists []. cbn. rewrite app_nil_r. repeat split. now constructor.
Qed.

Lemma ibus_dikt_get_global_engine_name_run (s : State W) :
  exists evs,
    trace (snd (ibus_dikt_get_global_engine_name s)) = trace s ++ evs /\
    globals (snd (ibus_dikt_get_global_engine_name s)) = globals s /\
    get_run (global_bus (globals s))
      (fst (ibus_dikt_get_global_engine_name s)) evs.
Proof.
  unfold ibus_dikt_get_global_engine_name, bind, gets, ret.
  destruct s as [g w t]. cbn [globals world trace].
  destruct (is_null (global_bus g)) eqn:Eb;
    [apply is_null_true in Eb | apply is_null_false in Eb].
  - exists []. cbn. rewrite app_nil_r. repeat split. now constructor.
  - unfold call. cbn [globals world trace].
    destruct (respond (ibus_bus_is_connected (global_bus g)) w)
      as [c w1] eqn:Ec.
    destruct (c_true c) eqn:Et;
      [apply c_true_true in Et | apply c_true_false in Et];
      cbn -[read_global_engine_name].
    + match goal with
      | |- context [read_global_engine_name ?b ?x] =>
          destruct (read_global_engine_name_shape b x) as (evs & Ht & Hg & Hr);
          destruct (read_global_engine_name b x) as [r s2]
      end.
      cbn [fst snd globals world trace] in *.
      eexists. split; [|split; [exact Hg|]].
      * rewrite Ht, <- app_assoc. reflexivity.
      * constructor; assumption.
    + subst. eexists. split; [reflexivity|]. split; [reflexivity|].
      now constructor.
Qed.

End ControlRuns.

Section MainProcess.

Context {W : Type} {fw : Framework W} {bld : Build}.

Lemma taken_app (l1 l2 : list event) : taken (l1 ++ l2) = taken l1 ++ taken l2.
Proof. apply flat_map_app. Qed.

Lemma given_app (l1 l2 : list event) : given (l1 ++ l2) = given l1 ++ given l2.
Proof. apply flat_map_app. Qed.

(** On each run of the reader the one object taken, the descriptor, is the
    one object given back. *)
Lemma read_run_ledger (bus : ptr) (r : gchar_p) (evs : list event) :
  read_run bus r evs -> given evs = taken evs.
Proof.
  intro H. destruct H; cbn;
    try match goal with
      | H : ?p <> NULL |- _ => rewrite (is_null_neq H)
      end; reflexivity.
Qed.

Lemma get_run_ledger (bus : ptr) (r : gchar_p) (evs : list event) :
  get_run bus r evs -> given evs = taken evs.
Proof.
  intro H. destruct H as [ | | c r evs Hb Hc Hread]; try reflexivity.
  cbn. exact (read_run_ledger Hread).
Qed.

(** X1. [ibus_dikt_get_global_engine_name], in any state: it writes no
    static; its run is one of the runs of [get_run] on the published bus
    (nothing at all without a bus; the connection query alone when the bus
    is not connected; otherwise the query and then: no descriptor, or a
    descriptor without a name, released, or a descriptor with a name,
    duplicated and then released); so on every path the objects it gives
    back are exactly the objects it was handed, the descriptor if there was
    one and nothing else; and when it returns a string, the run was exactly
    "bus connected, descriptor obtained, name read, name duplicated,
    descriptor released", and the string is the one [g_strdup] answered. *)
Theorem get_global_engine_name_releases_descriptor (s : State W) :
  let r := ibus_dikt_get_global_engine_name s in
  let bus := global_bus (globals s) in
  globals (snd r) = globals s /\
  ref_balance (added s (snd r)) = 0%Z /\
  (forall x, fst r = Some x ->
     exists connected desc name,
       bus <> NULL /\ connected <> FALSE /\ desc <> NULL /\
       added s (snd r) =
         [ Ev (ibus_bus_is_connected bus) connected;
           Ev (ibus_bus_get_global_engine bus) desc;
           Ev (ibus_engine_desc_get_name desc) (Some name);
           Ev (g_strdup name) (Some x);
           Ev (g_object_unref desc) tt ]) /\
  get_run bus (fst r) (added s (snd r)) /\
  given (added s (snd r)) = taken (added s (snd r)).
Proof.
  cbv zeta.
  destruct (ibus_dikt_get_global_engine_name_run s) as (evs & Ht & Hg & Hrun).
  rewrite (added_app _ _ _ Ht). split; [exact Hg|].
  split; [|split; [|split; [exact Hrun | exact (get_run_ledger Hrun)]]].
  - destruct Hrun as [ | | c r evs Hb Hc Hread]; try reflexivity.
    change (Ev (ibus_bus_is_connected (global_bus (globals s))) c :: evs)
      with ([Ev (ibus_bus_is_connected (global_bus (globals s))) c] ++ evs).
    rewrite ref_balance_app.
    destruct (read_run_balance Hread) as (Hr & _). rewrite Hr. reflexivity.
  - intros x Hx.
    remember (fst (ibus_dikt_get_global_engine_name s)) as res eqn:Eres.
    destruct Hrun as [ | | c r evs Hb Hc Hread]; try discriminate.
    destruct Hread as [ | | desc name copy Hd]; try discriminate.
    rewrite Hx. exists c, desc, name. repeat split; assumption.
Qed.


(** What one init does to the references and to the other statics. *)
Lemma ibus_dikt_init_balance (mode : bool) (s : State W) :
  exists evs,
    trace (snd (ibus_dikt_init mode s)) = trace s ++ evs /\
    ref_balance evs = (if (fst (ibus_dikt_init mode s) =? 0)%Z then 2 else 0)%Z /\
    published (globals (snd (ibus_dikt_init mode s))) =
      (if (fst (ibus_dikt_init mode s) =? 0)%Z then 2
       else published (globals s))%Z /\
    callbacks (globals (snd (ibus_dikt_init mode s))) = callbacks (globals s) /\
    daemon_statics (globals (snd (ibus_dikt_init mode s))) =
      daemon_statics (globals s).
Proof.
  destruct (ibus_dikt_init_run mode s) as (evs & Ht & Hrun).
  exists evs. split; [exact Ht|].
  remember (fst (ibus_dikt_init mode s)) as code eqn:Ec.
  remember (globals (snd (ibus_dikt_init mode s))) as g' eqn:Eg.
  destruct Hrun; unfold init_prologue, name_warning, ref_balance, count,
    published; cbn;
    repeat match goal with
      | H : ?p <> NULL |- _ => rewrite (is_null_neq H); clear H
      end; cbn; try (repeat split; reflexivity).
  - destruct (negb (result =? 1)%N && negb (result =? 2)%N); cbn;
      repeat split; reflexivity.
  - destruct (is_null component); cbn; repeat split; reflexivity.
Qed.

Lemma ibus_dikt_cleanup_balance (s : State W) :
  exists evs,
    trace (snd (ibus_dikt_cleanup s)) = trace s ++ evs /\
    ref_balance evs = (- published (globals s))%Z /\
    published (globals (snd (ibus_dikt_cleanup s))) = 0%Z /\
    callbacks (globals (snd (ibus_dikt_cleanup s))) = callbacks (globals s) /\
    daemon_statics (globals (snd (ibus_dikt_cleanup s))) =
      daemon_statics (globals s).
Proof.
  destruct (ibus_dikt_cleanup_run s) as [Ht Hg].
  eexists. split; [exact Ht|]. rewrite Hg.
  unfold published, ref_balance, count.
  destruct (is_null (global_factory (globals s))) eqn:Ef,
    (is_null (global_bus (globals s))) eqn:Eb; cbn;
    rewrite ?Ef, ?Eb; cbn; repeat split; reflexivity.
Qed.

Lemma run_cs_op_frame (op : cs_op) (s : State W) :
  exists evs,
    trace (snd (run_cs_op op s)) = trace s ++ evs /\
    globals (snd (run_cs_op op s)) = globals s /\
    ref_balance evs = 0%Z.
Proof.
  destruct op as [n|]; unfold run_cs_op, bind, ret.
  - destruct (ibus_dikt_set_global_engine_run n s) as (evs & Ht & Hg & Hrun).
    destruct (ibus_dikt_set_global_engine n s) as [r s1]. cbn in *.
    exists evs. repeat split; try assumption. destruct Hrun; reflexivity.
  - destruct (ibus_dikt_get_global_engine_name_run s) as (evs & Ht & Hg & Hrun).
    destruct (ibus_dikt_get_global_engine_name s) as [r s1]. cbn in *.
    exists evs. repeat split; try assumption.
    destruct Hrun as [ | | c r' evs Hb Hc Hread]; try reflexivity.
    change (Ev (ibus_bus_is_connected (global_bus (globals s))) c :: evs)
      with ([Ev (ibus_bus_is_connected (global_bus (globals s))) c] ++ evs).
    rewrite ref_balance_app.
    destruct (read_run_balance Hread) as (Hr & _). rewrite Hr. reflexivity.
Qed.

Lemma run_cs_ops_frame (ops : list cs_op) (s : State W) :
  exists evs,
    trace (snd (run_cs_ops ops s)) = trace s ++ evs /\
    globals (snd (run_cs_ops ops s)) = globals s /\
    ref_balance evs = 0%Z.
Proof.
  revert s. induction ops as [|op ops IH]; intro s.
  - exists []. cbn. rewrite app_nil_r. repeat split.
  - destruct (run_cs_op_frame op s) as (evs1 & Ht1 & Hg1 & Hb1).
    cbn [run_cs_ops]. unfold bind.
    destruct (run_cs_op op s) as [r s1]. cbn [snd] in *.
    destruct (IH s1) as (evs2 & Ht2 & Hg2 & Hb2).
    destruct (run_cs_ops ops s1) as [rs s2]. cbn [fst snd ret] in *.
    exists (evs1 ++ evs2). split; [|split].
    + rewrite Ht2, Ht1, app_assoc. reflexivity.
    + congruence.
    + rewrite ref_balance_app, Hb1, Hb2. reflexivity.
Qed.

(** The handles one init takes and gives back: on success the bus and the
    factory it publishes, and in between the component it builds and drops;
    on failure nothing that it does not give back itself. *)
Lemma ibus_dikt_init_ledger (mode : bool) (s : State W) :
  exists evs,
    trace (snd (ibus_dikt_init mode s)) = trace s ++ evs /\
    ((fst (ibus_dikt_init mode s) = 0%Z /\
      exists bus factory transient,
        bus <> NULL /\ factory <> NULL /\
        global_bus (globals (snd (ibus_dikt_init mode s))) = bus /\
        global_factory (globals (snd (ibus_dikt_init mode s))) = factory /\
        taken evs = bus :: factory :: transient /\
        given evs = transient)
     \/
     (fst (ibus_dikt_init mode s) <> 0%Z /\
      globals (snd (ibus_dikt_init mode s)) = globals s /\
      given evs = taken evs)).
Proof.
  destruct (ibus_dikt_init_run mode s) as (evs & Ht & Hrun).
  exists evs. split; [exact Ht|].
  remember (fst (ibus_dikt_init mode s)) as code eqn:Ec.
  remember (globals (snd (ibus_dikt_init mode s))) as g' eqn:Eg.
  destruct Hrun as [ m | m bus Hb | m bus c Hb Hc | m bus c conn Hb Hc Hn
                   | bus c conn f h ty res Hb Hc Hn Hf
                   | bus c conn f h ty comp desc ok Hb Hc Hn Hf ].
  - right. repeat split. discriminate.
  - right. split; [discriminate|]. split; [reflexivity|].
    cbn. rewrite (is_null_neq Hb). reflexivity.
  - right. split; [discriminate|]. split; [reflexivity|].
    cbn. rewrite (is_null_neq Hb). reflexivity.
  - right. split; [discriminate|]. split; [reflexivity|].
    cbn. rewrite (is_null_neq Hb). reflexivity.
  - left. split; [reflexivity|]. exists bus, f, [].
    repeat split; try assumption;
      unfold init_prologue, name_warning; cbn;
      rewrite ?(is_null_neq Hb), ?(is_null_neq Hf);
      destruct (negb (res =? 1)%N && negb (res =? 2)%N); reflexivity.
  - left. split; [reflexivity|].
    exists bus, f, (if is_null comp then [] else [comp]).
    repeat split; try assumption;
      unfold init_prologue; cbn;
      rewrite ?(is_null_neq Hb), ?(is_null_neq Hf);
      destruct (is_null comp); reflexivity.
Qed.

Lemma run_cs_op_ledger (op : cs_op) (s : State W) :
  exists evs,
    trace (snd (run_cs_op op s)) = trace s ++ evs /\
    globals (snd (run_cs_op op s)) = globals s /\
    given evs = taken evs.
Proof.
  destruct op as [n|]; unfold run_cs_op, bind, ret.
  - destruct (ibus_dikt_set_global_engine_run n s) as (evs & Ht & Hg & Hrun).
    destruct (ibus_dikt_set_global_engine n s) as [r s1]. cbn in *.
    exists evs. repeat split; try assumption. destruct Hrun; reflexivity.
  - destruct (ibus_dikt_get_global_engine_name_run s) as (evs & Ht & Hg & Hrun).
    destruct (ibus_dikt_get_global_engine_name s) as [r s1]. cbn in *.
    exists evs. repeat split; try assumption. exact (get_run_ledger Hrun).
Qed.

Lemma run_cs_ops_ledger (ops : list cs_op) (s : State W) :
  exists evs,
    trace (snd (run_cs_ops ops s)) = trace s ++ evs /\
    globals (snd (run_cs_ops ops s)) = globals s /\
    given evs = taken evs.
Proof.
  revert s. induction ops as [|op ops IH]; intro s.
  - exists []. cbn. rewrite app_nil_r. repeat split.
  - destruct (run_cs_op_ledger op s) as (evs1 & Ht1 & Hg1 & Hb1).
    cbn [run_cs_ops]. unfold bind.
    destruct (run_cs_op op s) as [r s1]. cbn [snd] in *.
    destruct (IH s1) as (evs2 & Ht2 & Hg2 & Hb2).
    destruct (run_cs_ops ops s1) as [rs s2]. cbn [fst snd ret] in *.
    exists (evs1 ++ evs2). split; [|split].
    + rewrite Ht2, Ht1, app_assoc. reflexivity.
    + congruence.
    + rewrite given_app, taken_app, Hb1, Hb2. reflexivity.
Qed.

(** X3. A whole session leaks nothing. In a process that has published no
    bus and no factory, run init in either mode (whether it succeeds or
    fails at any stage), then any sequence of set/get calls, then cleanup:
    the objects given back over the session are, one for one, the objects
    the wrapper was handed (the two lists are permutations of each other),
    so every reference taken has been given back and nothing else has; and
    both statics are null again. *)
Theorem session_is_leak_free
  (mode : bool) (ops : list cs_op) (s : State W) :
  global_bus (globals s) = NULL ->
  global_factory (globals s) = NULL ->
  let s1 := snd (ibus_dikt_init mode s) in
  let s2 := snd (run_cs_ops ops s1) in
  let s3 := snd (ibus_dikt_cleanup s2) in
  ref_balance (added s s3) = 0%Z /\
  global_bus (globals s3) = NULL /\
  global_factory (globals s3) = NULL /\
  Permutation (taken (added s s3)) (given (added s s3)).
Proof.
  intros Hb Hf. cbv zeta.
  destruct (ibus_dikt_init_balance mode s) as (e1 & Ht1 & Hb1 & Hp1 & _).
  destruct (run_cs_ops_frame ops (snd (ibus_dikt_init mode s)))
    as (e2 & Ht2 & Hg2 & Hb2).
  destruct (ibus_dikt_cleanup_balance
              (snd (run_cs_ops ops (snd (ibus_dikt_init mode s)))))
    as (e3 & Ht3 & Hb3 & _).
  destruct (ibus_dikt_cleanup_run
              (snd (run_cs_ops ops (snd (ibus_dikt_init mode s)))))
    as [Hc3 Hg3].
  assert (Hall : trace (snd (ibus_dikt_cleanup
                               (snd (run_cs_ops ops
                                       (snd (ibus_dikt_init mode s)))))) =
                 trace s ++ e1 ++ e2 ++ e3)
    by (rewrite Ht3, Ht2, Ht1, <- !app_assoc; reflexivity).
  split; [|rewrite Hg3; split; [reflexivity|split; [reflexivity|]]].
  - rewrite (added_app _ _ _ Hall).
    rewrite !ref_balance_app, Hb1, Hb2, Hb3, Hg2, Hp1.
    assert (Hp0 : published (globals s) = 0%Z).
    { unfold published. rewrite Hb, Hf. reflexivity. }
    rewrite Hp0.
    destruct (fst (ibus_dikt_init mode s) =? 0)%Z; lia.
  - rewrite (added_app _ _ _ Hall).
    assert (He3 : e3 =
              (if is_null (global_factory
                             (globals (snd (run_cs_ops ops
                                              (snd (ibus_dikt_init mode s))))))
               then []
               else [ Ev (g_object_unref
                            (global_factory
                               (globals (snd (run_cs_ops ops
                                                (snd (ibus_dikt_init mode
                                                        s))))))) tt ])
                ++ (if is_null (global_bus
                                  (globals (snd (run_cs_ops ops
                                                   (snd (ibus_dikt_init mode
                                                           s))))))
                    then []
                    else [ Ev (g_object_unref
                                 (global_bus
                                    (globals (snd (run_cs_ops ops
                                                     (snd (ibus_dikt_init
                                                             mode s)))))))
                              tt ])).
    { apply (app_inv_head (trace (snd (run_cs_ops ops
                                         (snd (ibus_dikt_init mode s)))))).
      rewrite <- Ht3. exact Hc3. }
    rewrite Hg2 in He3.
    destruct (ibus_dikt_init_ledger mode s) as (e1' & Ht1' & Hled).
    assert (e1' = e1) as ->
      by (apply (app_inv_head (trace s)); rewrite <- Ht1, <- Ht1'; reflexivity).
    destruct (run_cs_ops_ledger ops (snd (ibus_dikt_init mode s)))
      as (e2' & Ht2' & _ & Hled2).
    assert (e2' = e2) as ->
      by (apply (app_inv_head (trace (snd (ibus_dikt_init mode s))));
          rewrite <- Ht2, <- Ht2'; reflexivity).
    rewrite !taken_app, !given_app, Hled2.
    destruct Hled as [(_ & bus & factory & transient & Hbn & Hfn & Hgb & Hgf
                          & Htk & Hgv)
                     | (_ & Hg1 & Hgv)].
    + rewrite He3, Hgb, Hgf, (is_null_neq Hbn), (is_null_neq Hfn), Htk, Hgv.
      cbn. rewrite (is_null_neq Hbn), (is_null_neq Hfn). cbn.
      rewrite app_nil_r.
      change (bus :: factory :: transient ++ taken e2)
        with ([bus; factory] ++ (transient ++ taken e2)).
      rewrite (app_assoc transient).
      eapply Permutation_trans; [apply Permutation_app_comm|].
      apply Permutation_app_head. apply perm_swap.
    + rewrite He3, Hg1, Hb, Hf, Hgv. cbn. rewrite !app_nil_r.
      apply Permutation_refl.
Qed.


(** X5. The diagnostics of init. A run that returns 1, 2, 3 or 4 writes
    exactly one line to standard error, the one naming the failed step; a
    run that returns 0 in self-registered mode writes nothing, and one in
    IBus-managed mode writes at most the one warning line. *)
Theorem init_diagnostics (mode : bool) (s : State W) :
  let code := fst (ibus_dikt_init mode s) in
  let lines := stderr_lines (added s (snd (ibus_dikt_init mode s))) in
  (code <> 0%Z -> lines = stage_diagnostic code) /\
  (code = 0%Z -> mode = false -> lines = []) /\
  (code = 0%Z -> List.length lines <= 1).
Proof.
  cbv zeta.
  destruct (ibus_dikt_init_run mode s) as (evs & Ht & Hrun).
  rewrite (added_app _ _ _ Ht).
  remember (fst (ibus_dikt_init mode s)) as code eqn:Ec.
  remember (globals (snd (ibus_dikt_init mode s))) as g' eqn:Eg.
  destruct Hrun; unfold init_prologue, name_warning; cbn;
    (split; [intro Hc; try reflexivity; congruence|]);
    (split; [intros Hc Hm; try reflexivity; try discriminate|]);
    try (intro Hc; try discriminate; cbn; lia).
  intro Hc. destruct (negb (result =? 1)%N && negb (result =? 2)%N); cbn; lia.
Qed.

End MainProcess.

Section Sequences.

Context {W : Type} {fw : Framework W} {bld : Build}.

(** Dispatch through the class of [ibus_dikt_engine_class_init], by cases
    on the one test every method makes. *)
Lemma fire_class_init
  (klass : IBusDiktEngineClass W) (engine : ptr) (ev : engine_event)
  (s : State W) :
  fire (ibus_dikt_engine_class_init klass) engine ev s =
    if negb (is_null (slot_of ev (globals s)))
       && negb (is_null (global_context (globals s)))
    then forward ev (slot_of ev (globals s)) (global_context (globals s))
           engine s
    else (not_handled ev, s).
Proof.
  destruct ev; cbn;
    unfold ibus_dikt_engine_process_key_event, ibus_dikt_engine_focus_in,
      ibus_dikt_engine_focus_out, ibus_dikt_engine_reset,
      ibus_dikt_engine_enable, ibus_dikt_engine_disable, bind, gets; cbn;
    match goal with
    | |- context [negb (is_null ?a) && negb (is_null ?b)] =>
        destruct (negb (is_null a) && negb (is_null b))
    end; reflexivity.
Qed.

Lemma forward_frame (ev : engine_event) (cb ctx engine : ptr) (s : State W) :
  globals (snd (forward ev cb ctx engine s)) = globals s.
Proof.
  destruct ev; unfold forward, bind, call, ret;
    match goal with
    | |- context [respond ?c ?w] => destruct (respond c w)
    end; reflexivity.
Qed.

Lemma fire_frame
  (klass : IBusDiktEngineClass W) (engine : ptr) (ev : engine_event)
  (s : State W) :
  globals (snd (fire (ibus_dikt_engine_class_init klass) engine ev s)) =
    globals s.
Proof.
  rewrite fire_class_init.
  destruct (negb _ && negb _); [apply forward_frame | reflexivity].
Qed.

(** X6. Install, then dispatch. [ibus_dikt_set_callback] makes no foreign
    call and writes only the callback table; from then on an event is
    routed by the table just installed, whatever was installed before: to
    the slot given for that event, with the context given, when both are
    non-null, and nowhere when the slot or the context given is null (so
    installing a null context silences all six events). *)
Theorem install_then_dispatch
  (klass : IBusDiktEngineClass W) (s : State W)
  (ctx key_event_cb focus_in_cb focus_out_cb reset_cb enable_cb disable_cb
     engine : ptr) (ev : engine_event) :
  let s' := snd (ibus_dikt_set_callback ctx key_event_cb focus_in_cb
                   focus_out_cb reset_cb enable_cb disable_cb s) in
  let slot := installed_slot ev key_event_cb focus_in_cb focus_out_cb
                reset_cb enable_cb disable_cb in
  (trace s' = trace s /\ world s' = world s /\
   main_statics (globals s') = main_statics (globals s) /\
   daemon_statics (globals s') = daemon_statics (globals s)) /\
  (slot <> NULL /\ ctx <> NULL ->
   fire (ibus_dikt_engine_class_init klass) engine ev s' =
     forward ev slot ctx engine s') /\
  (slot = NULL \/ ctx = NULL ->
   fire (ibus_dikt_engine_class_init klass) engine ev s' =
     (not_handled ev, s')).
Proof.
  cbv zeta. split; [repeat split|].
  rewrite fire_class_init.
  assert (Hs : slot_of ev
                 (globals (snd (ibus_dikt_set_callback ctx key_event_cb
                                  focus_in_cb focus_out_cb reset_cb enable_cb
                                  disable_cb s))) =
               installed_slot ev key_event_cb focus_in_cb focus_out_cb
                 reset_cb enable_cb disable_cb)
    by (destruct ev; reflexivity).
  assert (Hc : global_context
                 (globals (snd (ibus_dikt_set_callback ctx key_event_cb
                                  focus_in_cb focus_out_cb reset_cb enable_cb
                                  disable_cb s))) = ctx) by reflexivity.
  rewrite Hs, Hc. split.
  - intros [H1 H2]. rewrite (is_null_neq H1), (is_null_neq H2). reflexivity.
  - intros [H | H]; rewrite H, is_null_NULL; cbn; [reflexivity|].
    rewrite andb_false_r. reflexivity.
Qed.

(** One main-process call: what it leaves alone. *)
Lemma run_main_op_frame (op : main_op) (s : State W) :
  daemon_statics (globals (snd (run_main_op op s))) =
    daemon_statics (globals s) /\
  (is_install op = false ->
   callbacks (globals (snd (run_main_op op s))) = callbacks (globals s)) /\
  (paired (globals s) -> paired (globals (snd (run_main_op op s)))).
Proof.
  destruct op as [ctx k fi fo r e d | mode | | op | engine ev | bus data];
    unfold run_main_op.
  - repeat split; [discriminate | intro H; exact H].
  - unfold bind, ret.
    destruct (ibus_dikt_init_balance mode s) as (evs & _ & _ & _ & Hc & Hd).
    pose proof (@init_success_publishes W fw bld mode s) as Hok.
    pose proof (@init_failure_keeps_globals W fw bld mode s) as Hko.
    destruct (ibus_dikt_init mode s) as [code s1]. cbn [fst snd] in *.
    split; [exact Hd|]. split; [intros _; exact Hc|].
    intro Hp. destruct (Z.eq_dec code 0) as [E | E].
    + destruct (Hok E) as (b & c & f & Hb & Hf & Hgb & Hgf & _).
      unfold paired. rewrite Hgb, Hgf, (is_null_neq Hb), (is_null_neq Hf).
      reflexivity.
    + rewrite (Hko E). exact Hp.
  - destruct (ibus_dikt_cleanup_run s) as [_ Hg]. rewrite Hg.
    repeat split.
  - unfold bind, ret.
    destruct (run_cs_op_frame op s) as (evs & _ & Hg & _).
    destruct (run_cs_op op s) as [r s1]. cbn [fst snd] in *. rewrite Hg.
    repeat split; intro H; exact H.
  - unfold bind, ret.
    pose proof (fire_frame parent_class engine ev s) as Hg.
    destruct (fire _ engine ev s) as [r s1]. cbn [fst snd] in *. rewrite Hg.
    repeat split; intro H; exact H.
  - unfold ibus_disconnected_cb, call.
    destruct (respond ibus_quit (world s)) as [[] w1]. cbn.
    repeat split; intro H; exact H.
Qed.

(** X7. Over any sequence of main-process calls (install, init in either
    mode, cleanup, set/get, engine events, the disconnect handler), from
    any state: the daemon side's latch and cached bus are never written (so
    cleanup never releases the daemon's bus); the callback table is written
    by install only, so what the host installed survives init, cleanup and
    every control call; and the bus and the factory stay published together
    or not at all. *)
Theorem main_process_invariants (ops : list main_op) (s : State W) :
  let s' := snd (run_main_ops ops s) in
  daemon_statics (globals s') = daemon_statics (globals s) /\
  (forallb (fun op => negb (is_install op)) ops = true ->
   callbacks (globals s') = callbacks (globals s)) /\
  (paired (globals s) -> paired (globals s')).
Proof.
  cbv zeta. revert s. induction ops as [|op ops IH]; intro s.
  - repeat split; intro H; exact H.
  - cbn [run_main_ops forallb]. unfold bind.
    destruct (run_main_op_frame op s) as (Hd & Hc & Hp).
    destruct (run_main_op op s) as [u s1]. cbn [fst snd] in *.
    destruct (IH s1) as (Hd' & Hc' & Hp').
    split; [congruence|]. split.
    + intro H. apply andb_true_iff in H. destruct H as [H1 H2].
      apply negb_true_iff in H1. rewrite (Hc' H2). exact (Hc H1).
    + intro H. exact (Hp' (Hp H)).
Qed.

End Sequences.

Section DaemonSide.

Context {W : Type} {fw : Framework W} {bld : Build}.

(** What one access leaves alone, and what it does to the latch. *)
Lemma ibus_dikt_daemon_get_bus_frame (s : State W) :
  main_statics (globals (snd (ibus_dikt_daemon_get_bus s))) =
    main_statics (globals s) /\
  callbacks (globals (snd (ibus_dikt_daemon_get_bus s))) =
    callbacks (globals s) /\
  daemon_ibus_initialized (globals (snd (ibus_dikt_daemon_get_bus s))) =
    (if (daemon_ibus_initialized (globals s) =? 0)%N then 1%N
     else daemon_ibus_initialized (globals s)).
Proof.
  unfold ibus_dikt_daemon_get_bus, daemon_ibus_init_once, g_once_init_enter,
    g_once_init_leave, bind, gets, modify, call, ret.
  destruct s as [g w t]. destruct g. cbn.
  destruct (daemon_ibus_initialized0 =? 0)%N; cbn;
    repeat first [answer | branch]; repeat split.
Qed.

Lemma cache_run_no_init (cached r cached' : ptr) (evs : list event) :
  cache_run cached r cached' evs -> count is_ibus_init evs = 0.
Proof.
  intro H. destruct H; unfold stale_release;
    destruct (is_null cached); reflexivity.
Qed.

(** A daemon-side operation: rejected at once, or one access followed by
    calls on the bus it returned. *)
Lemma run_daemon_op_tail (op : cs_op) (s : State W) :
  run_daemon_op op s = (SetResult FALSE, s) \/
  exists evs,
    trace (snd (run_daemon_op op s)) =
      trace (snd (ibus_dikt_daemon_get_bus s)) ++ evs /\
    globals (snd (run_daemon_op op s)) =
      globals (snd (ibus_dikt_daemon_get_bus s)) /\
    count is_ibus_init evs = 0.
Proof.
  destruct op as [[n|]|].
  - unfold run_daemon_op, ibus_dikt_daemon_set_global_engine.
    destruct (strlen n =? 0)%N; [left; reflexivity | right].
    unfold bind. destruct (ibus_dikt_daemon_get_bus s) as [bus s1]. cbn.
    destruct (is_null bus); cbn.
    + exists []. rewrite app_nil_r. repeat split.
    + unfold call.
      destruct (respond (ibus_bus_set_global_engine bus n) (world s1))
        as [r w1]. cbn.
      eexists; repeat split.
  - left. reflexivity.
  - right. unfold run_daemon_op, ibus_dikt_daemon_get_global_engine_name, bind.
    destruct (ibus_dikt_daemon_get_bus s) as [bus s1]. cbn.
    destruct (is_null bus); cbn.
    + exists []. rewrite app_nil_r. repeat split.
    + destruct (read_global_engine_name_shape bus s1) as (evs & Ht & Hg & Hr).
      destruct (read_global_engine_name bus s1) as [r s2]. cbn in *.
      exists evs. repeat split; try assumption.
      apply (read_run_balance Hr).
Qed.

Lemma run_daemon_op_frame (op : cs_op) (s : State W) :
  main_statics (globals (snd (run_daemon_op op s))) =
    main_statics (globals s) /\
  callbacks (globals (snd (run_daemon_op op s))) = callbacks (globals s) /\
  count is_ibus_init (added s (snd (run_daemon_op op s))) =
    (if (daemon_ibus_initialized (globals s) =? 0)%N
        && negb (daemon_ibus_initialized
                   (globals (snd (run_daemon_op op s))) =? 0)%N
     then 1 else 0) /\
  (daemon_ibus_initialized (globals s) <> 0%N ->
   daemon_ibus_initialized (globals (snd (run_daemon_op op s))) =
     daemon_ibus_initialized (globals s)).
Proof.
  destruct (run_daemon_op_tail op s) as [E | (evs & Ht & Hg & Hn)].
  - rewrite E. cbn [snd]. unfold added. rewrite skipn_all.
    repeat split.
    destruct (daemon_ibus_initialized (globals s) =? 0)%N; reflexivity.
  - destruct (ibus_dikt_daemon_get_bus_frame s) as (Hm & Hc & Hl).
    destruct (ibus_dikt_daemon_get_bus_run s) as (evs1 & Ht1 & Hrun).
    rewrite Hg, Hm, Hc, Hl.
    rewrite Ht1, <- !app_assoc in Ht.
    rewrite (added_app _ _ _ Ht), !count_app, (cache_run_no_init Hrun), Hn.
    unfold latch_events.
    destruct (N.eqb_spec (daemon_ibus_initialized (globals s)) 0) as [E | E].
    + repeat split. intro H. contradiction.
    + repeat split.
Qed.

(** X8. Over any sequence of daemon-side calls, from any state: the main
    process's bus and factory statics and the callback table are never
    written. *)
Theorem daemon_side_leaves_main_process_alone
  (ops : list cs_op) (s : State W) :
  main_statics (globals (snd (run_daemon_ops ops s))) =
    main_statics (globals s) /\
  callbacks (globals (snd (run_daemon_ops ops s))) = callbacks (globals s).
Proof.
  revert s. induction ops as [|op ops IH]; intro s; [split; reflexivity|].
  cbn [run_daemon_ops]. unfold bind.
  destruct (run_daemon_op_frame op s) as (Hm & Hc & _).
  destruct (run_daemon_op op s) as [r s1]. cbn [snd] in *.
  destruct (IH s1) as (Hm' & Hc').
  destruct (run_daemon_ops ops s1) as [rs s2]. cbn [fst snd ret] in *.
  split; congruence.
Qed.

(** X9. The runtime initialiser runs at most once on the daemon side. Over
    any sequence of daemon-side calls, [ibus_init] is called once if the
    latch was open before and is shut after, and not at all otherwise; and
    a latch that is shut stays as it is. *)
Theorem daemon_runtime_initialised_once (ops : list cs_op) (s : State W) :
  let s' := snd (run_daemon_ops ops s) in
  count is_ibus_init (added s s') =
    (if (daemon_ibus_initialized (globals s) =? 0)%N
        && negb (daemon_ibus_initialized (globals s') =? 0)%N
     then 1 else 0) /\
  (daemon_ibus_initialized (globals s) <> 0%N ->
   daemon_ibus_initialized (globals s') = daemon_ibus_initialized (globals s)).
Proof.
  cbv zeta. revert s. induction ops as [|op ops IH]; intro s.
  - cbn. unfold added. rewrite skipn_all. split; [|reflexivity].
    destruct (daemon_ibus_initialized (globals s) =? 0)%N; reflexivity.
  - cbn [run_daemon_ops]. unfold bind.
    destruct (run_daemon_op_frame op s) as (_ & _ & Hn1 & Hl1).
    destruct (run_daemon_op_balance op s) as (e1 & Ht1 & _).
    destruct (run_daemon_op op s) as [r s1]. cbn [snd] in *.
    destruct (IH s1) as (Hn2 & Hl2).
    destruct (run_daemon_ops_balance ops s1) as (e2 & Ht2 & _).
    destruct (run_daemon_ops ops s1) as [rs s2]. cbn [fst snd ret] in *.
    rewrite (added_app _ _ _ Ht1) in Hn1.
    rewrite (added_app _ _ _ Ht2) in Hn2.
    rewrite Ht1, <- app_assoc in Ht2.
    rewrite (added_app _ _ _ Ht2), count_app, Hn1, Hn2.
    destruct (N.eqb_spec (daemon_ibus_initialized (globals s)) 0) as [E0 | E0];
      destruct (N.eqb_spec (daemon_ibus_initialized (globals s1)) 0)
        as [E1 | E1];
      destruct (N.eqb_spec (daemon_ibus_initialized (globals s2)) 0)
        as [E2 | E2]; cbn; split; try reflexivity; try intro H;
      try contradiction;
      try (specialize (Hl2 E1); congruence);
      try (specialize (Hl1 E0); congruence);
      try (rewrite (Hl2 E1); exact (Hl1 E0)).
Qed.

(** X10. The accessor hands out only a handle it has just seen connected.
    After any access the cache holds exactly what was returned; and when
    the result is not null, the last call of the access was the connection
    query on that very handle and it answered "connected". *)
Theorem daemon_get_bus_returns_checked_handle (s : State W) :
  let r := ibus_dikt_daemon_get_bus s in
  daemon_cached_bus (globals (snd r)) = fst r /\
  (fst r <> NULL ->
   exists before connected,
     connected <> FALSE /\
     added s (snd r) =
       before ++ [ Ev (ibus_bus_is_connected (fst r)) connected ]).
Proof.
  cbv zeta.
  destruct (ibus_dikt_daemon_get_bus_run s) as (evs & Ht & Hrun).
  rewrite (added_app _ _ _ Ht).
  remember (fst (ibus_dikt_daemon_get_bus s)) as r eqn:Er.
  remember (daemon_cached_bus (globals (snd (ibus_dikt_daemon_get_bus s))))
    as c' eqn:Ec.
  destruct Hrun as [c Hc Hconn | | fresh Hf | fresh c Hf Hconn];
    (split; [reflexivity|]); intro Hr; try congruence.
  - exists (latch_events (globals s)), c. split; [exact Hconn | reflexivity].
  - exists (latch_events (globals s)
              ++ stale_release (daemon_cached_bus (globals s))
              ++ [ Ev ibus_bus_new fresh ]), c.
    split; [exact Hconn|]. rewrite <- !app_assoc. reflexivity.
Qed.

(** X11. The fast path of an engine switch. With a handle in the cache that
    answers "connected" and a non-empty name,
    [ibus_dikt_daemon_set_global_engine] makes, after the latch, exactly
    two calls, the connection query and the switch request, both on the
    cached handle, and returns the answer of the switch request. *)
Theorem daemon_switch_fast_path (name : string) (s : State W) :
  let cached := daemon_cached_bus (globals s) in
  let r := ibus_dikt_daemon_set_global_engine (Some name) s in
  name <> EmptyString ->
  cached <> NULL ->
  fst (respond (ibus_bus_is_connected cached)
         (world (snd (daemon_ibus_init_once s)))) <> FALSE ->
  exists connected,
    connected <> FALSE /\
    added s (snd r) =
      latch_events (globals s)
        ++ [ Ev (ibus_bus_is_connected cached) connected;
             Ev (ibus_bus_set_global_engine cached name) (fst r) ].
Proof.
  cbv zeta. intros Hname Hc Hconn.
  unfold ibus_dikt_daemon_set_global_engine.
  assert (Hlen : (strlen name =? 0)%N = false).
  { destruct name; [contradiction|]. reflexivity. }
  rewrite Hlen. unfold bind.
  rewrite (ibus_dikt_daemon_get_bus_hit s Hc Hconn).
  unfold bind, call, ret.
  pose proof (daemon_ibus_init_once_trace s) as Hl.
  destruct (daemon_ibus_init_once s) as [u s0]. cbn [snd] in *.
  destruct (respond (ibus_bus_is_connected (daemon_cached_bus (globals s)))
              (world s0)) as [c w1]. cbn [fst] in Hconn. cbn.
  rewrite (is_null_neq Hc). cbn.
  destruct (respond (ibus_bus_set_global_engine
                       (daemon_cached_bus (globals s)) name) w1) as [r w2].
  cbn. exists c. split; [exact Hconn|].
  apply added_app. cbn. rewrite Hl, <- !app_assoc. reflexivity.
Qed.

(** X13. [ibus_dikt_daemon_get_global_engine_name] reads from the cached
    bus. When it returns a string, the handle the accessor returned is not
    null and is the one left in the cache, it had just answered
    "connected", and the calls that follow are exactly "descriptor
    obtained from that handle, name read, name duplicated, descriptor
    released"; the string is the one [g_strdup] answered. *)
Theorem daemon_get_global_engine_name_reads_cached_bus
  (s : State W) (x : string) :
  let r := ibus_dikt_daemon_get_global_engine_name s in
  fst r = Some x ->
  exists before bus connected desc name,
    bus <> NULL /\ connected <> FALSE /\ desc <> NULL /\
    daemon_cached_bus (globals (snd r)) = bus /\
    added s (snd r) =
      before
        ++ [ Ev (ibus_bus_is_connected bus) connected;
             Ev (ibus_bus_get_global_engine bus) desc;
             Ev (ibus_engine_desc_get_name desc) (Some name);
             Ev (g_strdup name) (Some x);
             Ev (g_object_unref desc) tt ].
Proof.
  cbv zeta. unfold ibus_dikt_daemon_get_global_engine_name, bind.
  destruct (ibus_dikt_daemon_get_bus_run s) as (evs1 & Ht1 & Hrun).
  destruct (ibus_dikt_daemon_get_bus s) as [bus s1]. cbn [fst snd] in *.
  destruct (is_null bus) eqn:Eb; [discriminate|].
  apply is_null_false in Eb.
  destruct (read_global_engine_name_shape bus s1) as (evs2 & Ht2 & Hg2 & Hread).
  destruct (read_global_engine_name bus s1) as [res s2]. cbn [fst snd] in *.
  intro Hx. subst res.
  remember (Some x) as copy eqn:Ecopy.
  destruct Hread as [ | | desc name copy Hd]; try discriminate. subst copy.
  rewrite Hg2.
  remember (daemon_cached_bus (globals s1)) as c' eqn:Ec'.
  assert (Hlast : exists before connected,
             connected <> FALSE /\ c' = bus /\
             evs1 = before ++ [ Ev (ibus_bus_is_connected bus) connected ]).
  { destruct Hrun as [c Hc Hconn | | fresh Hf | fresh c Hf Hconn];
      try congruence.
    - exists [], c. repeat split; assumption.
    - exists (stale_release (daemon_cached_bus (globals s))
                ++ [ Ev ibus_bus_new fresh ]), c.
      repeat split; try assumption. rewrite <- app_assoc. reflexivity. }
  destruct Hlast as (before & c & Hc & Hcache & Hevs).
  exists (latch_events (globals s) ++ before), bus, c, desc, name.
  repeat split; try assumption.
  apply added_app. rewrite Ht2, Ht1, Hevs, <- !app_assoc. reflexivity.
Qed.

End DaemonSide.

Section InitThenControl.

Context {W : Type} {fw : Framework W} {bld : Build}.

(** X12. The control surface talks to the bus that init created. After an
    init that returned 0, [ibus_dikt_set_global_engine] with a non-null
    name first asks the one bus that init obtained from [ibus_bus_new]
    whether it is connected; if not, it answers FALSE and sends nothing; if
    so, it sends the switch request to that same bus and returns its
    answer. *)
Theorem init_then_switch (mode : bool) (name : string) (s : State W) :
  fst (ibus_dikt_init mode s) = 0%Z ->
  let s1 := snd (ibus_dikt_init mode s) in
  let r := ibus_dikt_set_global_engine (Some name) s1 in
  exists bus connected,
    bus <> NULL /\
    filter is_bus_new (added s s1) = [ Ev ibus_bus_new bus ] /\
    added s1 (snd r) =
      Ev (ibus_bus_is_connected bus) connected
        :: (if c_true connected
            then [ Ev (ibus_bus_set_global_engine bus name) (fst r) ]
            else []) /\
    (connected = FALSE -> fst r = FALSE).
Proof.
  intro H0. cbv zeta.
  destruct (init_success_publishes mode s H0)
    as (bus & conn & factory & Hb & _ & Hgb & _ & Hnew & _).
  destruct (ibus_dikt_set_global_engine_run (Some name)
              (snd (ibus_dikt_init mode s))) as (evs & Ht & _ & Hrun).
  rewrite (added_app _ _ _ Ht). rewrite Hgb in Hrun.
  remember (fst (ibus_dikt_set_global_engine (Some name)
                   (snd (ibus_dikt_init mode s)))) as res eqn:Eres.
  remember (Some name) as arg eqn:Earg.
  destruct Hrun as [n Hn | Hn | n Hn | n c r Hn Hc]; try congruence;
    injection Earg as ->.
  - exists bus, FALSE. repeat split; assumption.
  - exists bus, c. rewrite (c_true_neq Hc).
    repeat split; try assumption. intro. contradiction.
Qed.

End InitThenControl.

(** * Further concrete runs *)

(** Witness of X1: reading the global engine in the running process. *)
Lemma get_global_engine_name_witness :
  fst (ibus_dikt_get_global_engine_name running) = Some "xkb:us::eng"%string /\
  ref_balance
    (added running (snd (ibus_dikt_get_global_engine_name running))) = 0%Z /\
  given (added running (snd (ibus_dikt_get_global_engine_name running))) =
    taken (added running (snd (ibus_dikt_get_global_engine_name running))) /\
  exists connected desc name,
    global_bus (globals running) <> NULL /\ connected <> FALSE /\
    desc <> NULL /\
    added running (snd (ibus_dikt_get_global_engine_name running)) =
      [ Ev (ibus_bus_is_connected (global_bus (globals running))) connected;
        Ev (ibus_bus_get_global_engine (global_bus (globals running))) desc;
        Ev (ibus_engine_desc_get_name desc) (Some name);
        Ev (g_strdup name) (Some "xkb:us::eng"%string);
        Ev (g_object_unref desc) tt ].
Proof.
  pose proof (@get_global_engine_name_releases_descriptor Mock mock_framework
                running) as H.
  cbv zeta in H. destruct H as (_ & Hb & Hsome & _ & Hledger).
  split; [vm_compute; reflexivity|]. split; [exact Hb|].
  split; [exact Hledger|].
  apply Hsome. vm_compute. reflexivity.
Defined.


(** Witness of X3: a self-registered session with a switch and a read. *)
Lemma session_is_leak_free_witness :
  ref_balance
    (added (start mock_up)
       (snd (ibus_dikt_cleanup
               (snd (run_cs_ops
                       [ SetGlobalEngine (Some "dikt"%string);
                         GetGlobalEngineName ]
                       (snd (ibus_dikt_init false (start mock_up)))))))) =
    0%Z /\
  Permutation
    (taken
       (added (start mock_up)
          (snd (ibus_dikt_cleanup
                  (snd (run_cs_ops
                          [ SetGlobalEngine (Some "dikt"%string);
                            GetGlobalEngineName ]
                          (snd (ibus_dikt_init false (start mock_up)))))))))
    (given
       (added (start mock_up)
          (snd (ibus_dikt_cleanup
                  (snd (run_cs_ops
                          [ SetGlobalEngine (Some "dikt"%string);
                            GetGlobalEngineName ]
                          (snd (ibus_dikt_init false (start mock_up))))))))).
Proof.
  pose proof (@session_is_leak_free Mock mock_framework default_build false
                [ SetGlobalEngine (Some "dikt"%string); GetGlobalEngineName ]
                (start mock_up)) as H.
  cbv zeta in H.
  destruct H as (Hbal & _ & _ & Hperm); [reflexivity | reflexivity |].
  split; [exact Hbal | exact Hperm].
Defined.


(** Witness of X5: the daemon is down, then up. *)
Lemma init_diagnostics_witness :
  stderr_lines
    (added (start mock_down) (snd (ibus_dikt_init true (start mock_down)))) =
    stage_diagnostic (fst (ibus_dikt_init true (start mock_down))) /\
  stderr_lines
    (added (start mock_up) (snd (ibus_dikt_init false (start mock_up)))) = [].
Proof.
  split.
  - apply (proj1 (@init_diagnostics Mock mock_framework default_build true (start mock_down))).
    vm_compute. discriminate.
  - apply (proj1 (proj2 (@init_diagnostics Mock mock_framework default_build false
                           (start mock_up))));
      vm_compute; reflexivity.
Defined.

(** Witness of X6: a fresh install routes focus-in to its slot, and an
    install with a null context routes nothing. *)
Lemma install_then_dispatch_witness :
  fire (ibus_dikt_engine_class_init parent_class) 7 FocusIn installed =
    forward FocusIn 4098 4096 7 installed /\
  fire (ibus_dikt_engine_class_init parent_class) 7 (KeyEvent 32 57 0)
    (snd (ibus_dikt_set_callback NULL 4097 4098 4099 4100 4101 4102 installed))
  = (Some FALSE,
     snd (ibus_dikt_set_callback NULL 4097 4098 4099 4100 4101 4102 installed)).
Proof.
  split.
  - apply (proj1 (proj2 (@install_then_dispatch Mock mock_framework
                           parent_class (start mock_up) 4096 4097 4098 4099
                           4100 4101 4102 7 FocusIn))).
    split; discriminate.
  - apply (proj2 (proj2 (@install_then_dispatch Mock mock_framework
                           parent_class installed NULL 4097 4098 4099 4100
                           4101 4102 7 (KeyEvent 32 57 0)))).
    right. reflexivity.
Defined.

(** Witness of X7: a whole life of the main process after an install. *)
Lemma main_process_invariants_witness :
  callbacks
    (globals (snd (run_main_ops
                     [ Init true; Dispatch 7 FocusIn;
                       Control GetGlobalEngineName; Disconnected 16 NULL;
                       Cleanup ] installed))) =
    [ 4096; 4097; 4098; 4099; 4100; 4101; 4102 ]%N /\
  paired
    (globals (snd (run_main_ops
                     [ Init true; Dispatch 7 FocusIn;
                       Control GetGlobalEngineName; Disconnected 16 NULL;
                       Cleanup ] installed))).
Proof.
  pose proof (@main_process_invariants Mock mock_framework default_build
                [ Init true; Dispatch 7 FocusIn; Control GetGlobalEngineName;
                  Disconnected 16 NULL; Cleanup ] installed) as H.
  cbv zeta in H. destruct H as (_ & Hc & Hp).
  split; [apply Hc; reflexivity | apply Hp; reflexivity].
Defined.

(** Witness of X9: the latch of a warm daemon process is shut. *)
Lemma daemon_runtime_initialised_once_witness :
  daemon_ibus_initialized (globals daemon_warm) = 1%N /\
  daemon_ibus_initialized
    (globals (snd (run_daemon_ops
                     [ GetGlobalEngineName;
                       SetGlobalEngine (Some "dikt"%string) ] daemon_cut))) =
    daemon_ibus_initialized (globals daemon_cut).
Proof.
  split; [reflexivity|].
  apply (proj2 (@daemon_runtime_initialised_once Mock mock_framework
                  [ GetGlobalEngineName; SetGlobalEngine (Some "dikt"%string) ]
                  daemon_cut)).
  discriminate.
Defined.

(** Witness of X10: the first access of a daemon process. *)
Lemma daemon_get_bus_checked_witness :
  fst (ibus_dikt_daemon_get_bus (start mock_up)) = 16%N /\
  exists before connected,
    connected <> FALSE /\
    added (start mock_up) (snd (ibus_dikt_daemon_get_bus (start mock_up))) =
      before
        ++ [ Ev (ibus_bus_is_connected
                   (fst (ibus_dikt_daemon_get_bus (start mock_up))))
                connected ].
Proof.
  split; [reflexivity|].
  apply (proj2 (@daemon_get_bus_returns_checked_handle Mock mock_framework
                  (start mock_up))).
  discriminate.
Defined.

(** Witness of X11: a second switch on the warm cache. *)
Lemma daemon_switch_fast_path_witness :
  exists connected,
    connected <> FALSE /\
    added daemon_warm
      (snd (ibus_dikt_daemon_set_global_engine (Some "dikt"%string)
              daemon_warm)) =
      latch_events (globals daemon_warm)
        ++ [ Ev (ibus_bus_is_connected (daemon_cached_bus (globals daemon_warm)))
                connected;
             Ev (ibus_bus_set_global_engine
                   (daemon_cached_bus (globals daemon_warm)) "dikt")
                (fst (ibus_dikt_daemon_set_global_engine (Some "dikt"%string)
                        daemon_warm)) ].
Proof.
  apply (@daemon_switch_fast_path Mock mock_framework "dikt" daemon_warm);
    discriminate.
Defined.

(** Witness of X12: init, then a switch. *)
Lemma init_then_switch_witness :
  fst (ibus_dikt_init false (start mock_up)) = 0%Z /\
  exists bus connected,
    bus <> NULL /\
    filter is_bus_new
      (added (start mock_up) (snd (ibus_dikt_init false (start mock_up)))) =
      [ Ev ibus_bus_new bus ] /\
    added (snd (ibus_dikt_init false (start mock_up)))
      (snd (ibus_dikt_set_global_engine (Some "dikt"%string)
              (snd (ibus_dikt_init false (start mock_up))))) =
      Ev (ibus_bus_is_connected bus) connected
        :: (if c_true connected
            then [ Ev (ibus_bus_set_global_engine bus "dikt")
                      (fst (ibus_dikt_set_global_engine (Some "dikt"%string)
                              (snd (ibus_dikt_init false (start mock_up))))) ]
            else []) /\
    (connected = FALSE ->
     fst (ibus_dikt_set_global_engine (Some "dikt"%string)
            (snd (ibus_dikt_init false (start mock_up)))) = FALSE).
Proof.
  split; [vm_compute; reflexivity|].
  apply (@init_then_switch Mock mock_framework default_build false "dikt" (start mock_up)).
  vm_compute. reflexivity.
Defined.

(** Witness of X13: reading back the engine a warm daemon process has just
    switched to. *)
Lemma daemon_get_global_engine_name_witness :
  fst (ibus_dikt_daemon_get_global_engine_name daemon_warm) =
    Some "dikt"%string /\
  exists before bus connected desc name,
    bus <> NULL /\ connected <> FALSE /\ desc <> NULL /\
    daemon_cached_bus
      (globals (snd (ibus_dikt_daemon_get_global_engine_name daemon_warm))) =
      bus /\
    added daemon_warm
      (snd (ibus_dikt_daemon_get_global_engine_name daemon_warm)) =
      before
        ++ [ Ev (ibus_bus_is_connected bus) connected;
             Ev (ibus_bus_get_global_engine bus) desc;
             Ev (ibus_engine_desc_get_name desc) (Some name);
             Ev (g_strdup name) (Some "dikt"%string);
             Ev (g_object_unref desc) tt ].
Proof.
  split; [vm_compute; reflexivity|].
  apply (@daemon_get_global_engine_name_reads_cached_bus Mock mock_framework
           daemon_warm "dikt").
  vm_compute. reflexivity.
Defined.
